(** * ha-actronair-neo: the vendor API client and the entity adapters

    A shallow embedding of
    - [custom_components/actron_air_neo/api.py]       (module [Api]),
    - [custom_components/actron/climate.py]           (module [ActronClimate]),
    - [custom_components/actron_air_neo/climate.py]   (module [NeoClimate]),
    - [custom_components/actron/sensor.py]            (module [ZoneSensor]),
    - [_format_uptime] of [custom_components/actronair_neo/binary_sensor.py]
      (module [Uptime]),
    over a small model of the Python values, exceptions and effects the code
    uses (module [Py]). *)

From stdpp Require Import gmap strings list pretty.

#[local] Set Warnings "-register-all".

(** ** Python values, exceptions and effects *)

Module Py.

(** A Python [float]: a finite value (kept as the fraction it denotes), an
    infinity or NaN.  Only comparisons with zero and [int()] are used by the
    code, both exact on this representation. *)
Inductive pyfloat :=
| FFinite (num : Z) (den : positive)
| FInf (negative : bool)
| FNaN.

(** What [response.json()] can produce, which is also what the code's
    dictionaries hold: [None], [bool], [int], [float], [str], [list], [dict]. *)
Inductive json :=
| JNull
| JBool (b : bool)
| JInt (z : Z)
| JFloat (f : pyfloat)
| JStr (s : string)
| JArr (l : list json)
| JObj (m : gmap string json).

(** The exception classes the code raises, catches or can meet.
    [ClientError] stands for [aiohttp.ClientError] and its subclasses and
    carries [str(err)].  [OtherException] is any further subclass of
    [Exception] (a JSON decoding error, [asyncio.TimeoutError], ...).
    [CancelledError] derives from [BaseException] only, so that
    [except Exception] does not catch it. *)
Inductive exn :=
| AuthenticationError (msg : string)
| ApiError (msg : string)
| ClientError (msg : string)
| KeyError (key : string)
| TypeError
| AttributeError
| ValueError
| OverflowError
| StopIteration
| RuntimeError (msg : string)
| OtherException (name msg : string)
| CancelledError.

(** [str(e)] where the code formats an exception into a message: the message
    the exception was built from.  The code formats client errors only. *)
Definition str (e : exn) : string :=
  match e with
  | AuthenticationError msg | ApiError msg | ClientError msg
  | RuntimeError msg | OtherException _ msg => msg
  | KeyError key => "'" +:+ key +:+ "'"
  | _ => ""
  end.

Definition is_Exception (e : exn) : bool :=
  match e with CancelledError => false | _ => true end.

Definition is_ClientError (e : exn) : bool :=
  match e with ClientError _ => true | _ => false end.

Definition is_AuthenticationError (e : exn) : bool :=
  match e with AuthenticationError _ => true | _ => false end.

Inductive result (A : Type) :=
| Ok (a : A)
| Raise (e : exn).
Arguments Ok {A} a.
Arguments Raise {A} e.

#[global] Instance result_ret : MRet result := λ A, Ok.
#[global] Instance result_bind : MBind result := λ A B k r,
  match r with Ok a => k a | Raise e => Raise e end.

Definition is_Ok {A} (r : result A) : bool :=
  match r with Ok _ => true | Raise _ => false end.

(** [bool(x)] *)
Definition truthy (x : json) : bool :=
  match x with
  | JNull => false
  | JBool b => b
  | JInt z => negb (z =? 0)%Z
  | JFloat (FFinite n _) => negb (n =? 0)%Z
  | JFloat _ => true
  | JStr s => negb (String.eqb s "")
  | JArr l => match l with [] => false | _ => true end
  | JObj m => negb (bool_decide (m = ∅))
  end.

(** [needle in hay] on two [str] *)
Fixpoint str_contains (needle hay : string) : bool :=
  String.prefix needle hay ||
  match hay with
  | EmptyString => false
  | String _ hay' => str_contains needle hay'
  end.

Definition is_JStr (key : string) (x : json) : bool :=
  match x with JStr s => String.eqb s key | _ => false end.

(** [key in c] for a [str] key *)
Definition py_contains (key : string) (c : json) : result bool :=
  match c with
  | JObj m => Ok (bool_decide (is_Some (m !! key)))
  | JArr l => Ok (existsb (is_JStr key) l)
  | JStr s => Ok (str_contains key s)
  | _ => Raise TypeError
  end.

(** [c[key]] for a [str] key *)
Definition py_getitem (c : json) (key : string) : result json :=
  match c with
  | JObj m => match m !! key with Some v => Ok v | None => Raise (KeyError key) end
  | _ => Raise TypeError
  end.

(** [c.get(key, dflt)]: only a [dict] has the method *)
Definition py_get (c : json) (key : string) (dflt : json) : result json :=
  match c with
  | JObj m => Ok (default dflt (m !! key))
  | _ => Raise AttributeError
  end.

Fixpoint chars (s : string) : list json :=
  match s with
  | EmptyString => []
  | String a s' => JStr (String a EmptyString) :: chars s'
  end.

(** The elements [for x in c] runs through.  A [dict] yields its keys; their
    order is the map's, not the insertion order, which no caller depends on. *)
Definition py_iter (c : json) : result (list json) :=
  match c with
  | JArr l => Ok l
  | JObj m => Ok (JStr <$> (map_to_list m).*1)
  | JStr s => Ok (chars s)
  | _ => Raise TypeError
  end.

(** Logging.  A record keeps the level, the message template and the values
    formatted into it. *)
Inductive level := Debug | Info | Error.

Inductive log_arg :=
| AStr (s : string)
| AInt (z : Z)
| AExn (e : exn)
| AJson (j : json).

(** What a run leaves behind, in order: log records and calls [X] out of the
    component (HTTP requests, coordinator calls). *)
Inductive event (X : Type) :=
| EvLog (lvl : level) (fmt : string) (args : list log_arg)
| EvCall (x : X).
Arguments EvLog {X} lvl fmt args.
Arguments EvCall {X} x.

(** The calls of a run, logs dropped. *)
Fixpoint calls {X} (tr : list (event X)) : list X :=
  match tr with
  | [] => []
  | EvCall x :: tr' => x :: calls tr'
  | EvLog _ _ _ :: tr' => calls tr'
  end.

(** A method over an object of state [S]: it reads and writes the object,
    extends the trace, and returns or raises. *)
Definition M (X S A : Type) : Type :=
  S → list (event X) → result A * S * list (event X).

Definition ret {X S A} (a : A) : M X S A := λ s tr, (Ok a, s, tr).

Definition raise {X S A} (e : exn) : M X S A := λ s tr, (Raise e, s, tr).

Definition bind {X S A B} (m : M X S A) (k : A → M X S B) : M X S B :=
  λ s tr,
    match m s tr with
    | (Ok a, s', tr') => k a s' tr'
    | (Raise e, s', tr') => (Raise e, s', tr')
    end.

#[global] Instance M_ret {X S} : MRet (M X S) := λ A, ret.
#[global] Instance M_bind {X S} : MBind (M X S) := λ A B k m, bind m k.

Definition get_self {X S} : M X S S := λ s tr, (Ok s, s, tr).

Definition set_self {X S} (s : S) : M X S unit := λ _ tr, (Ok (), s, tr).

Definition lift {X S A} (r : result A) : M X S A := λ s tr, (r, s, tr).

Definition log {X S} (lvl : level) (fmt : string) (args : list log_arg) : M X S unit :=
  λ s tr, (Ok (), s, tr ++ [EvLog lvl fmt args]).

(** A call out of the component: recorded in the trace, answered by the
    environment, which sees everything that happened before. *)
Definition perform {X S R} (x : X) (answer : list (event X) → result R) : M X S R :=
  λ s tr, (answer tr, s, tr ++ [EvCall x]).

(** [try: body  except <class> as e: handler e] *)
Definition try_except {X S A} (body : M X S A) (catches : exn → bool)
    (handler : exn → M X S A) : M X S A :=
  λ s tr,
    match body s tr with
    | (Raise e, s', tr') =>
        if catches e then handler e s' tr' else (Raise e, s', tr')
    | out => out
    end.

(** What leaves a coroutine: a [StopIteration] that escapes the body of an
    [async def] reaches the caller as [RuntimeError]. *)
Definition surface (e : exn) : exn :=
  match e with
  | StopIteration => RuntimeError "coroutine raised StopIteration"
  | _ => e
  end.

Definition async_def {X S A} (body : M X S A) : M X S A :=
  λ s tr,
    match body s tr with
    | (Raise e, s', tr') => (Raise (surface e), s', tr')
    | out => out
    end.

(** [s] occurs inside [msg]. *)
Definition occurs_in (s msg : string) : Prop :=
  ∃ before after : string, msg = before +:+ s +:+ after.

End Py.

Import Py.

(** ** The vendor API client: [actron_air_neo/api.py] *)

Module Api.

(** A header value: a literal, or [f"Bearer {self.bearer_token}"] with the
    token it was formatted from. *)
Inductive header :=
| HStr (s : string)
| HBearer (token : json).

(** The arguments of [session.request(method, url, headers=, data=, json=)]. *)
Record request := {
  req_method : string;
  req_url : string;
  req_headers : gmap string header;
  req_data : option (gmap string json);
  req_json : option json;
}.

(** The response object: [response.status], and what [await response.text()]
    and [await response.json()] give. *)
Record response := {
  status : Z;
  text : result string;
  json_body : result json;
}.

Inductive call := Request (r : request).

(** [class ActronApi]; the session is the environment below. *)
Record ActronApi := {
  username : string;
  password : string;
  bearer_token : json;
}.

(** What the client runs against.  [API_URL] and [CMD_SET_SETTINGS] come from
    [const.py], which is not part of the sources, so both are parameters.
    [session_request] is the HTTP session and the server behind it: the
    answer to a request, given everything that happened before it. *)
Record environment := {
  API_URL : string;
  CMD_SET_SETTINGS : string;
  session_request : list (event call) → request → result response;
}.

Definition set_bearer_token (self : ActronApi) (tok : json) : ActronApi :=
  {| username := username self; password := password self; bearer_token := tok |}.

(** [ActronApi.__init__] *)
Definition init (username password : string) : ActronApi :=
  {| username := username; password := password; bearer_token := JNull |}.

Section Client.

Context (env : environment).

#[local] Abbreviation Act := (M call ActronApi).

(** The arguments [_make_request] hands to [session.request]. *)
Definition request_of (url method : string)
    (headers : option (gmap string header))
    (data : option (gmap string json)) (json_ : option json)
    (auth_required : bool) (self : ActronApi) : request :=
  let headers := default ∅ headers in
  let headers :=
    if auth_required
    then <["Authorization" := HBearer (bearer_token self)]> headers
    else headers in
  {| req_method := method; req_url := url; req_headers := headers;
     req_data := data; req_json := json_ |}.

Definition _make_request (url method : string)
    (headers : option (gmap string header))
    (data : option (gmap string json)) (json_ : option json)
    (auth_required : bool) : Act json :=
  async_def (
    self ← get_self;
    if auth_required && negb (truthy (bearer_token self)) then
      raise (AuthenticationError "Not authenticated")
    else
      let request := request_of url method headers data json_ auth_required self in
      log Debug "Making {method} request to: {url}" [AStr method; AStr url];;
      try_except
        (response ← perform (Request request)
                      (λ tr, session_request env tr request);
         if (status response =? 200)%Z then
           log Debug "Request successful, status code: {response.status}"
             [AInt (status response)];;
           lift (json_body response)
         else
           text ← lift (text response);
           log Error "API request failed: {response.status}, {text}"
             [AInt (status response); AStr text];;
           raise (ApiError ("API request failed: " +:+ pretty (status response)
                            +:+ ", " +:+ text)))
        is_ClientError
        (λ err,
           log Error "Network error during API request: {err}" [AExn err];;
           raise (ApiError ("Network error during API request: " +:+ str err)))).

(** The trace as the session sees it when [_make_request], entered at [tr],
    issues its request. *)
Definition at_request (tr : list (event call)) (url method : string)
    : list (event call) :=
  tr ++ [EvLog Debug "Making {method} request to: {url}" [AStr method; AStr url]].

(** The session and the responses it hands out raise no
    [AuthenticationError] of their own. *)
Definition session_raises_no_AuthenticationError : Prop :=
  (∀ h r e, session_request env h r = Raise e → is_AuthenticationError e = false)
  ∧ (∀ h r resp e, session_request env h r = Ok resp →
       text resp = Raise e ∨ json_body resp = Raise e →
       is_AuthenticationError e = false).

Definition form_headers : gmap string header :=
  {[ "Content-Type" := HStr "application/x-www-form-urlencoded" ]}.

Definition pairing_url : string := API_URL env +:+ "/api/v0/client/user-devices".

Definition pairing_data (self : ActronApi) : gmap string json :=
  {[ "username" := JStr (username self);
     "password" := JStr (password self);
     "client" := JStr "ios";
     "deviceName" := JStr "HomeAssistant";
     "deviceUniqueIdentifier" := JStr "HomeAssistant" ]}.

Definition _request_pairing_token : Act json :=
  async_def (
    self ← get_self;
    let url := pairing_url in
    let data := pairing_data self in
    log Debug "Requesting pairing token from: {url}" [AStr url];;
    response ← _make_request url "POST" (Some form_headers) (Some data) None false;
    lift (py_getitem response "pairingToken")).

Definition token_url : string := API_URL env +:+ "/api/v0/oauth/token".

Definition token_data (pairing_token : json) : gmap string json :=
  {[ "grant_type" := JStr "refresh_token";
     "refresh_token" := pairing_token;
     "client_id" := JStr "app" ]}.

Definition _request_bearer_token (pairing_token : json) : Act json :=
  async_def (
    let url := token_url in
    let data := token_data pairing_token in
    log Debug "Requesting bearer token from: {url}" [AStr url];;
    response ← _make_request url "POST" (Some form_headers) (Some data) None false;
    lift (py_getitem response "access_token")).

(** The two requests of [authenticate], as handed to the session. *)
Definition pairing_request (self : ActronApi) : request :=
  request_of pairing_url "POST" (Some form_headers) (Some (pairing_data self))
    None false self.

Definition token_request (pairing_token : json) (self : ActronApi) : request :=
  request_of token_url "POST" (Some form_headers) (Some (token_data pairing_token))
    None false self.

Definition authenticate : Act unit :=
  async_def (
    try_except
      (pairing_token ← _request_pairing_token;
       token ← _request_bearer_token pairing_token;
       self ← get_self;
       set_self (set_bearer_token self token))
      is_Exception
      (λ e, log Error "Authentication failed: %s" [AExn e];; raise e)).

(** The [dict] built for one entry of the [ac-system] list. *)
Definition device_of (system : json) : result (gmap string json) :=
  serial ← py_get system "serial" (JStr "Unknown");
  name ← py_get system "description" (JStr "Unknown Device");
  type ← py_get system "type" (JStr "Unknown");
  Ok ({[ "serial" := serial; "name" := name; "type" := type ]} : gmap string json).

(** The [for system in ...: devices.append({...})] loop. *)
Fixpoint collect_devices (systems : list json) (devices : list (gmap string json))
    : result (list (gmap string json)) :=
  match systems with
  | [] => Ok devices
  | system :: rest =>
      device ← device_of system;
      collect_devices rest (devices ++ [device])
  end.

(** The part of [get_devices] after the request. *)
Definition parse_devices (response : json) : result (list (gmap string json)) :=
  has_embedded ← py_contains "_embedded" response;
  if has_embedded : bool then
    embedded ← py_getitem response "_embedded";
    has_systems ← py_contains "ac-system" embedded;
    if has_systems : bool then
      systems ← py_getitem embedded "ac-system";
      systems ← py_iter systems;
      collect_devices systems []
    else Ok []
  else Ok [].

Definition devices_url : string :=
  API_URL env +:+ "/api/v0/client/ac-systems?includeNeo=true".

Definition get_devices : Act (list (gmap string json)) :=
  async_def (
    let url := devices_url in
    log Debug "Fetching devices from: {url}" [AStr url];;
    response ← _make_request url "GET" None None None true;
    devices ← lift (parse_devices response);
    log Debug "Found devices: {devices}" [AJson (JArr (JObj <$> devices))];;
    mret devices).

(** The outcome of the request [get_devices] makes when entered at [tr]. *)
Definition devices_response (self : ActronApi) (tr : list (event call))
    : result json * ActronApi * list (event call) :=
  _make_request devices_url "GET" None None None true self
    (tr ++ [EvLog Debug "Fetching devices from: {url}" [AStr devices_url]]).

Definition get_ac_status (serial : string) : Act json :=
  async_def (
    let url := API_URL env +:+ "/api/v0/client/ac-systems/status/latest?serial="
               +:+ serial in
    log Debug "Fetching AC status from: {url}" [AStr url];;
    _make_request url "GET" None None None true).

(** The request of [get_ac_status], as handed to the session. *)
Definition status_request (serial : string) (self : ActronApi) : request :=
  request_of (API_URL env +:+ "/api/v0/client/ac-systems/status/latest?serial="
              +:+ serial) "GET" None None None true self.

(** [{"command": {**command, "type": CMD_SET_SETTINGS}}] *)
Definition command_envelope (command : gmap string json) : json :=
  JObj {[ "command" := JObj (<["type" := JStr (CMD_SET_SETTINGS env)]> command) ]}.

Definition send_command (serial : string) (command : gmap string json) : Act json :=
  async_def (
    let url := API_URL env +:+ "/api/v0/client/ac-systems/cmds/send?serial="
               +:+ serial in
    let data := command_envelope command in
    log Debug "Sending command to: {url}, Command: {data}" [AStr url; AJson data];;
    _make_request url "POST" None None (Some data) true).

End Client.

End Api.

(** ** The host framework's constants *)

Module HA.

(** [homeassistant.components.climate.const.HVACMode], a string enum. *)
Inductive HVACMode := OFF | HEAT | COOL | HEAT_COOL | AUTO | DRY | FAN_ONLY.

#[global] Instance HVACMode_eq_dec : EqDecision HVACMode.
Proof. solve_decision. Defined.

Definition hvac_value (m : HVACMode) : string :=
  match m with
  | OFF => "off"
  | HEAT => "heat"
  | COOL => "cool"
  | HEAT_COOL => "heat_cool"
  | AUTO => "auto"
  | DRY => "dry"
  | FAN_ONLY => "fan_only"
  end.

(** [homeassistant.components.climate.const.HVACAction] *)
Module HVACAction.
Inductive t := COOLING | DEFROSTING | DRYING | FAN | HEATING | IDLE | OFF | PREHEATING.
End HVACAction.

Definition ATTR_TEMPERATURE : string := "temperature".
Definition PRESET_AWAY : string := "away".
Definition PRESET_NONE : string := "none".

End HA.

Import HA.

(** ** The coordinator, as the entities see it *)

Module Coordinator.

(** The calls an entity makes through its coordinator:
    [coordinator.api.send_command(serial, command)],
    [coordinator.async_request_refresh()] and
    [coordinator.set_away_mode(flag)]. *)
Inductive call :=
| SendCommand (serial : string) (command : gmap string json)
| RequestRefresh
| SetAwayMode (flag : bool).

(** How the API client and the host answer them. *)
Record environment := {
  api_send_command :
    list (event call) → string → gmap string json → result json;
  async_request_refresh : list (event call) → result unit;
  coordinator_set_away_mode : list (event call) → bool → result unit;
}.

Section Calls.

Context (env : environment) {S : Type}.

Definition send_to_api (serial : string) (command : gmap string json) : M call S json :=
  perform (SendCommand serial command) (λ tr, api_send_command env tr serial command).

Definition request_refresh : M call S unit :=
  perform RequestRefresh (async_request_refresh env).

Definition call_set_away_mode (flag : bool) : M call S unit :=
  perform (SetAwayMode flag) (λ tr, coordinator_set_away_mode env tr flag).

End Calls.

(** The commands sent to the API in a run, in order. *)
Definition commands (tr : list (event call)) : list (string * gmap string json) :=
  omap (λ c, match c with SendCommand serial command => Some (serial, command)
                        | _ => None end) (calls tr).

(** What an operation that has [command] to send to device [device_id]
    leaves behind when entered at [tr].  The command goes out first.  If the
    API accepts it, one refresh is requested after it and nothing else is
    called; the operation returns, or raises what the refresh raised.  If
    the API refuses it, no refresh is requested and the refusal is raised. *)
Definition command_then_refresh {S} (env : environment) (device_id : string)
    (command : gmap string json) (tr : list (event call))
    (out : result unit * S * list (event call)) : Prop :=
  match api_send_command env tr device_id command with
  | Ok _ =>
      calls out.2 = calls tr ++ [SendCommand device_id command; RequestRefresh]
      ∧ match async_request_refresh env
                (tr ++ [EvCall (SendCommand device_id command)]) with
        | Ok _ => out.1.1 = Ok ()
        | Raise e => out.1.1 = Raise (surface e)
        end
  | Raise e =>
      calls out.2 = calls tr ++ [SendCommand device_id command]
      ∧ out.1.1 = Raise (surface e)
  end.

End Coordinator.

(** ** The zone climate entity: [actron/climate.py] *)

Module ActronClimate.

Import Coordinator.

(** [HVAC_MODES], in the order the dictionary is written. *)
Definition HVAC_MODES : list (string * HVACMode) :=
  [("OFF", OFF); ("AUTO", AUTO); ("COOL", COOL); ("HEAT", HEAT); ("FAN", FAN_ONLY)].

(** [HVAC_MODES.get(key, dflt)]: a [list] or [dict] key is unhashable. *)
Definition HVAC_MODES_get (key : json) (dflt : HVACMode) : result HVACMode :=
  match key with
  | JStr s => Ok (default dflt (snd <$> find (λ kv, String.eqb kv.1 s) HVAC_MODES))
  | JArr _ | JObj _ => Raise TypeError
  | _ => Ok dflt
  end.

(** [next(k for k, v in HVAC_MODES.items() if v == hvac_mode)] *)
Definition vendor_mode (hvac_mode : HVACMode) : result string :=
  match find (λ kv, bool_decide (kv.2 = hvac_mode)) HVAC_MODES with
  | Some kv => Ok kv.1
  | None => Raise StopIteration
  end.

(** What the entity reads: [self.coordinator.data],
    [self.coordinator.device_id] and [self._zone_id]. *)
Record ActronClimate := {
  coordinator_data : json;
  device_id : string;
  _zone_id : string;
}.

(** The [hvac_mode] property. *)
Definition hvac_mode (self : ActronClimate) : result HVACMode :=
  main ← py_getitem (coordinator_data self) "main";
  is_on ← py_getitem main "is_on";
  if negb (truthy is_on) then Ok OFF
  else
    main ← py_getitem (coordinator_data self) "main";
    mode ← py_getitem main "mode";
    HVAC_MODES_get mode OFF.

(** [self.coordinator.data['zones'][self._zone_id][key]] *)
Definition zone_item (self : ActronClimate) (key : string) : result json :=
  zones ← py_getitem (coordinator_data self) "zones";
  zone ← py_getitem zones (_zone_id self);
  py_getitem zone key.

(** The [current_temperature] property. *)
Definition current_temperature (self : ActronClimate) : result json :=
  zone_item self "temp".

(** The [target_temperature] property. *)
Definition target_temperature (self : ActronClimate) : result json :=
  mode ← hvac_mode self;
  if bool_decide (mode = COOL) then zone_item self "setpoint_cool"
  else
    mode ← hvac_mode self;
    if bool_decide (mode = HEAT) then zone_item self "setpoint_heat"
    else Ok JNull.

(** The [fan_mode] property. *)
Definition fan_mode (self : ActronClimate) : result json :=
  main ← py_getitem (coordinator_data self) "main";
  py_getitem main "fan_mode".

(** The [preset_mode] property. *)
Definition preset_mode (self : ActronClimate) : result string :=
  main ← py_getitem (coordinator_data self) "main";
  away_mode ← py_getitem main "away_mode";
  Ok (if truthy away_mode then PRESET_AWAY else PRESET_NONE).

Section Entity.

Context (env : environment).

#[local] Abbreviation Act := (M call ActronClimate).

Definition setpoint_cool (self : ActronClimate) : string :=
  "RemoteZoneInfo[" +:+ _zone_id self +:+ "].TemperatureSetpoint_Cool_oC".

Definition setpoint_heat (self : ActronClimate) : string :=
  "RemoteZoneInfo[" +:+ _zone_id self +:+ "].TemperatureSetpoint_Heat_oC".

(** The body of the [try] in [async_set_temperature]. *)
Definition set_temperature_body (kwargs : gmap string json) : Act unit :=
  self ← get_self;
  match kwargs !! ATTR_TEMPERATURE with
  | Some temp =>
      mode ← lift (hvac_mode self);
      if bool_decide (mode = COOL) then
        send_to_api env (device_id self) {[ setpoint_cool self := temp ]};; mret ()
      else
        mode ← lift (hvac_mode self);
        if bool_decide (mode = HEAT) then
          send_to_api env (device_id self) {[ setpoint_heat self := temp ]};; mret ()
        else mret ()
  | None => mret ()
  end;;
  request_refresh env.

Definition async_set_temperature (kwargs : gmap string json) : Act unit :=
  async_def (
    try_except (set_temperature_body kwargs) is_Exception
      (λ err, log Error "Failed to set temperature: %s" [AExn err];; raise err)).

(** The body of the [try] in [async_set_hvac_mode]. *)
Definition set_hvac_mode_body (hvac_mode : HVACMode) : Act unit :=
  self ← get_self;
  (if bool_decide (hvac_mode = OFF) then
     send_to_api env (device_id self) {[ "UserAirconSettings.isOn" := JBool false ]}
   else
     mode ← lift (vendor_mode hvac_mode);
     send_to_api env (device_id self)
       {[ "UserAirconSettings.isOn" := JBool true;
          "UserAirconSettings.Mode" := JStr mode ]});;
  request_refresh env.

Definition async_set_hvac_mode (hvac_mode : HVACMode) : Act unit :=
  async_def (
    try_except (set_hvac_mode_body hvac_mode) is_Exception
      (λ err, log Error "Failed to set HVAC mode: %s" [AExn err];; raise err)).

(** The body of the [try] in [async_set_fan_mode]. *)
Definition set_fan_mode_body (fan_mode : string) : Act unit :=
  self ← get_self;
  send_to_api env (device_id self) {[ "UserAirconSettings.FanMode" := JStr fan_mode ]};;
  request_refresh env.

Definition async_set_fan_mode (fan_mode : string) : Act unit :=
  async_def (
    try_except (set_fan_mode_body fan_mode) is_Exception
      (λ err, log Error "Failed to set fan mode: %s" [AExn err];; raise err)).

(** The body of the [try] in [async_set_preset_mode]. *)
Definition set_preset_mode_body (preset_mode : string) : Act unit :=
  if String.eqb preset_mode PRESET_AWAY then call_set_away_mode env true
  else call_set_away_mode env false.

Definition async_set_preset_mode (preset_mode : string) : Act unit :=
  async_def (
    try_except (set_preset_mode_body preset_mode) is_Exception
      (λ err, log Error "Failed to set preset mode: %s" [AExn err];; raise err)).

End Entity.

End ActronClimate.

(** ** The system climate entity: [actron_air_neo/climate.py] *)

Module NeoClimate.

(** The call the entity makes:
    [coordinator.set_temperature(temperature, is_cooling)].  What the
    coordinator does with it is in [coordinator.py], which is not part of
    the sources. *)
Inductive call :=
| SetTemperature (temperature : json) (is_cooling : bool).

(** How the coordinator answers it. *)
Record environment := {
  coordinator_set_temperature : list (event call) → json → bool → result unit;
}.

(** What the entity reads: [self.coordinator.data] and the coordinator's
    bound device. *)
Record ActronClimate := {
  coordinator_data : json;
  device_id : string;
}.

(** The [hvac_mode] property.  It hands back what the coordinator stored
    under [mode]; [HVACMode.OFF] is the string ["off"]. *)
Definition hvac_mode (self : ActronClimate) : result json :=
  main ← py_getitem (coordinator_data self) "main";
  is_on ← py_get main "is_on" JNull;
  if negb (truthy is_on) then Ok (JStr (hvac_value OFF))
  else
    main ← py_getitem (coordinator_data self) "main";
    py_get main "mode" (JStr (hvac_value OFF)).

(** [self.coordinator.data['main'].get(key)] *)
Definition main_get (self : ActronClimate) (key : string) : result json :=
  main ← py_getitem (coordinator_data self) "main";
  py_get main key JNull.

(** The [current_temperature] property. *)
Definition current_temperature (self : ActronClimate) : result json :=
  main_get self "indoor_temp".

(** The [target_temperature] property. *)
Definition target_temperature (self : ActronClimate) : result json :=
  mode ← hvac_mode self;
  if is_JStr (hvac_value COOL) mode then main_get self "temp_setpoint_cool"
  else
    mode ← hvac_mode self;
    if is_JStr (hvac_value HEAT) mode then main_get self "temp_setpoint_heat"
    else Ok JNull.

(** The [hvac_action] property. *)
Definition hvac_action (self : ActronClimate) : result HVACAction.t :=
  is_on ← main_get self "is_on";
  if negb (truthy is_on) then Ok HVACAction.OFF
  else
    mode ← hvac_mode self;
    if is_JStr (hvac_value COOL) mode then Ok HVACAction.COOLING
    else
      mode ← hvac_mode self;
      if is_JStr (hvac_value HEAT) mode then Ok HVACAction.HEATING
      else
        mode ← hvac_mode self;
        if is_JStr (hvac_value FAN_ONLY) mode then Ok HVACAction.FAN
        else Ok HVACAction.IDLE.

(** The [fan_mode] property. *)
Definition fan_mode (self : ActronClimate) : result json :=
  main_get self "fan_mode".

(** The [current_humidity] property. *)
Definition current_humidity (self : ActronClimate) : result json :=
  main_get self "indoor_humidity".

Section Entity.

Context (env : environment).

#[local] Abbreviation Act := (M call ActronClimate).

Definition async_set_temperature (kwargs : gmap string json) : Act unit :=
  async_def (
    self ← get_self;
    match default JNull (kwargs !! ATTR_TEMPERATURE) with
    | JNull => mret ()
    | temperature =>
        mode ← lift (hvac_mode self);
        let is_cooling := is_JStr (hvac_value COOL) mode in
        perform (SetTemperature temperature is_cooling)
          (λ tr, coordinator_set_temperature env tr temperature is_cooling)
    end).

End Entity.

End NeoClimate.

(** ** The zone sensors: [actron/sensor.py] *)

Module ZoneSensor.

(** The three sensor classes share their code up to the field they read and
    the words of their log message. *)
Inductive kind := Temperature | Humidity | Battery.

Definition field (k : kind) : string :=
  match k with
  | Temperature => "current_temperature"
  | Humidity => "humidity"
  | Battery => "battery_level"
  end.

Definition failure_message (k : kind) : string :=
  match k with
  | Temperature => "Failed to update temperature sensor for zone {self._zone_id}: {e}"
  | Humidity => "Failed to update humidity sensor for zone {self._zone_id}: {e}"
  | Battery => "Failed to update battery sensor for zone {self._zone_id}: {e}"
  end.

(** [self._api.get_status()] *)
Inductive call := GetStatus.

Record environment := {
  get_status : list (event call) → result json;
}.

(** The entity; zone identifiers are strings. *)
Record sensor := {
  _zone_id : string;
  _name : string;
  _state : json;
}.

Definition set_state (self : sensor) (v : json) : sensor :=
  {| _zone_id := _zone_id self; _name := _name self; _state := v |}.

(** [__init__] *)
Definition init (k : kind) (zone_id zone_name : string) : sensor :=
  {| _zone_id := zone_id;
     _name := "Actron Neo Zone " +:+ zone_name +:+
              match k with
              | Temperature => " Temperature"
              | Humidity => " Humidity"
              | Battery => " Battery"
              end;
     _state := JNull |}.

Section Entity.

Context (env : environment) (k : kind).

#[local] Abbreviation Act := (M call sensor).

(** [for zone in ...: if zone.get("zoneId") == self._zone_id: ...; break] *)
Fixpoint scan (zones : list json) : Act unit :=
  match zones with
  | [] => mret ()
  | zone :: rest =>
      self ← get_self;
      zone_id ← lift (py_get zone "zoneId" JNull);
      if is_JStr (_zone_id self) zone_id then
        value ← lift (py_get zone (field k) JNull);
        set_self (set_state self value)
      else scan rest
  end.

(** The body of the [try] in [async_update]. *)
Definition update_body : Act unit :=
  status ← perform GetStatus (get_status env);
  if truthy status then
    zones ← lift (py_get status "zones" (JArr []));
    zones ← lift (py_iter zones);
    scan zones
  else mret ().

Definition async_update : Act unit :=
  async_def (
    try_except update_body is_Exception
      (λ e, self ← get_self;
            log Error (failure_message k) [AStr (_zone_id self); AExn e])).

End Entity.

End ZoneSensor.

(** ** [_format_uptime]: [actronair_neo/binary_sensor.py] *)

Module Uptime.

Definition UNKNOWN_VALUE : string := "Unknown".

(** [isinstance(x, (int, float))]; a [bool] is an [int]. *)
Definition is_int_or_float (x : json) : bool :=
  match x with
  | JBool _ | JInt _ | JFloat _ => true
  | _ => false
  end.

(** [x < 0] on a number *)
Definition lt_zero (x : json) : bool :=
  match x with
  | JInt z => (z <? 0)%Z
  | JFloat (FFinite n _) => (n <? 0)%Z
  | JFloat (FInf negative) => negative
  | _ => false
  end.

(** [int(x)] on a number: truncation; no integer for an infinity or NaN. *)
Definition py_int (x : json) : result Z :=
  match x with
  | JBool b => Ok (if b then 1 else 0)%Z
  | JInt z => Ok z
  | JFloat (FFinite n d) => Ok (Z.quot n (Z.pos d))
  | JFloat (FInf _) => Raise OverflowError
  | JFloat FNaN => Raise ValueError
  | _ => Raise TypeError
  end.

(** [f"{n}{unit}"] when [keep], nothing otherwise *)
Definition part (keep : bool) (n : Z) (unit : string) : list string :=
  if keep then [pretty n +:+ unit] else [].

(** The lines after the guard, on the integer number of seconds. *)
Definition format_parts (total : Z) : list string :=
  let days := (total `div` 86400)%Z in
  let remainder := (total `mod` 86400)%Z in
  let hours := (remainder `div` 3600)%Z in
  let remainder := (remainder `mod` 3600)%Z in
  let minutes := (remainder `div` 60)%Z in
  let seconds := (remainder `mod` 60)%Z in
  let parts := part (0 <? days)%Z days "d" in
  let parts := parts ++ part (0 <? hours)%Z hours "h" in
  let parts := parts ++ part (0 <? minutes)%Z minutes "m" in
  parts ++ part ((0 <? seconds)%Z || bool_decide (parts = [])) seconds "s".

Definition _format_uptime (seconds : json) : result string :=
  if negb (is_int_or_float seconds) || lt_zero seconds then Ok UNKNOWN_VALUE
  else
    total ← py_int seconds;
    Ok (String.concat " " (format_parts total)).

End Uptime.

(** ** The system status sensor's helpers: [actronair_neo/binary_sensor.py] *)

Module Diagnostics.

(** The helpers call nothing outside; they only log. *)
#[local] Abbreviation Act := (M Empty_set unit).

(** [required_paths] of [_validate_status] *)
Definition required_paths : list (list string) :=
  [["SystemStatus_Local"]; ["LiveAircon"]; ["AirconSystem"]].

(** The inner loop of [_validate_status]: follow [path] down from [current];
    [false] stands for the [return False] inside it. *)
Fixpoint follow (current : json) (path : list string) : Act bool :=
  match path with
  | [] => mret true
  | key :: rest =>
      match current with
      | JObj m =>
          if bool_decide (is_Some (m !! key)) then
            follow (default (JObj ∅) (m !! key)) rest
          else
            log Debug "Missing required key: %s" [AStr key];; mret false
      | _ => log Debug "Missing required key: %s" [AStr key];; mret false
      end
  end.

(** The outer loop of [_validate_status]. *)
Fixpoint check_paths (status : json) (paths : list (list string)) : Act bool :=
  match paths with
  | [] => mret true
  | path :: rest =>
      found ← follow status path;
      if found : bool then check_paths status rest else mret false
  end.

Definition _validate_status (status : json) : Act bool :=
  try_except
    (match status with
     | JObj _ => check_paths status required_paths
     | _ => mret false
     end)
    is_Exception
    (λ err, log Debug "Status validation failed: %s" [AExn err];; mret false).

Section Formatting.

(** [str(x)] of a [float], as [f"{signal}"] prints it: Python's shortest
    round-trip representation, taken as a parameter. *)
Variable float_str : pyfloat → string.

(** [f"{signal}"] for a value that passed [isinstance(signal, (int, float))] *)
Definition number_str (signal : json) : string :=
  match signal with
  | JBool true => "True"
  | JBool false => "False"
  | JInt z => pretty z
  | JFloat f => float_str f
  | _ => ""
  end.

(** [signal > bound] for an integer [bound]; no comparison with NaN holds. *)
Definition gt_int (signal : json) (bound : Z) : bool :=
  match signal with
  | JBool b => (bound <? (if b then 1 else 0))%Z
  | JInt z => (bound <? z)%Z
  | JFloat (FFinite n d) => (bound * Z.pos d <? n)%Z
  | JFloat (FInf negative) => negb negative
  | _ => false
  end.

(** The [strength] expression of [_format_wifi_signal]. *)
Definition strength (signal : json) : string :=
  if gt_int signal (-50) then "Excellent"
  else if gt_int signal (-60) then "Good"
  else if gt_int signal (-70) then "Fair"
  else "Poor".

Definition _format_wifi_signal (signal : json) : string :=
  if negb (Uptime.is_int_or_float signal) then Uptime.UNKNOWN_VALUE
  else number_str signal +:+ " dBm (" +:+ strength signal +:+ ")".

End Formatting.

(** [_get_zone_operation] *)
Definition _get_zone_operation (zone_data : json) : result string :=
  is_enabled ← py_get zone_data "is_enabled" (JBool false);
  if negb (truthy is_enabled) then Ok "Off" else Ok "Running".

End Diagnostics.

(** ** Concrete runs *)

Module Scenario.

Import Api.

(** A server that answers every request with the same response. *)
Definition always (resp : response) : list (event call) → request → result response :=
  λ _ _, Ok resp.

Definition server (resp : response) : environment :=
  {| API_URL := "https://vendor.example";
     CMD_SET_SETTINGS := "set-settings";
     session_request := always resp |}.

Definition unauthorized : response :=
  {| status := 401;
     text := Ok "Unauthorized";
     json_body := Raise (OtherException "JSONDecodeError" "Expecting value") |}.

Definition not_found : response :=
  {| status := 404;
     text := Ok "not found";
     json_body := Raise (OtherException "JSONDecodeError" "Expecting value") |}.

Definition ok_json (doc : json) : response :=
  {| status := 200; text := Ok ""; json_body := Ok doc |}.

(** [{"_embedded": {"ac-system": [{}]}}]: one system, no field given. *)
Definition one_bare_system : json :=
  JObj {[ "_embedded" := JObj {[ "ac-system" := JArr [JObj ∅] ]} ]}.

(** A server that hands out a pairing token and then refuses to exchange it. *)
Definition refuses_exchange : environment :=
  {| API_URL := "https://vendor.example";
     CMD_SET_SETTINGS := "set-settings";
     session_request := λ _ req,
       if String.eqb (req_url req) "https://vendor.example/api/v0/client/user-devices"
       then Ok (ok_json (JObj {[ "pairingToken" := JStr "pairing" ]}))
       else Ok unauthorized |}.

(** A vendor cloud that pairs, hands out the bearer ["token"], lists one
    system and reports a status document for it. *)
Definition status_document : json :=
  JObj {[ "lastKnownState" := JObj ∅; "isOnline" := JBool true ]}.

Definition vendor : environment :=
  {| API_URL := "https://vendor.example";
     CMD_SET_SETTINGS := "set-settings";
     session_request := λ _ req,
       if String.eqb (req_url req) "https://vendor.example/api/v0/client/user-devices"
       then Ok (ok_json (JObj {[ "pairingToken" := JStr "pairing" ]}))
       else if String.eqb (req_url req) "https://vendor.example/api/v0/oauth/token"
       then Ok (ok_json (JObj {[ "access_token" := JStr "token" ]}))
       else if String.eqb (req_url req)
                 "https://vendor.example/api/v0/client/ac-systems/status/latest?serial=S1"
       then Ok (ok_json status_document)
       else Ok not_found |}.

(** A server whose pairing answer is a document without the token. *)
Definition pairs_without_token : environment :=
  server (ok_json (JObj {[ "error" := JStr "locked" ]})).

(** [{"_embedded": {"ac-system": [{"serial": "S1"}, 7]}}]: the second entry
    of the list is not a record. *)
Definition one_stray_system : json :=
  JObj {[ "_embedded" := JObj {[ "ac-system" :=
            JArr [JObj {[ "serial" := JStr "S1" ]}; JInt 7] ]} ]}.

Definition fresh_client : ActronApi := init "user" "secret".

Definition paired_client : ActronApi :=
  set_bearer_token fresh_client (JStr "token").

(** A coordinator whose API accepts every command and whose refresh works. *)
Definition accepting : Coordinator.environment :=
  {| Coordinator.api_send_command := λ _ _ _, Ok (JObj ∅);
     Coordinator.async_request_refresh := λ _, Ok ();
     Coordinator.coordinator_set_away_mode := λ _ _, Ok () |}.

(** A coordinator whose API accepts every command and whose refresh fails. *)
Definition refresh_fails : Coordinator.environment :=
  {| Coordinator.api_send_command := λ _ _ _, Ok (JObj ∅);
     Coordinator.async_request_refresh := λ _, Raise (OtherException "UpdateFailed" "timeout");
     Coordinator.coordinator_set_away_mode := λ _ _, Ok () |}.

(** A coordinator whose API refuses every command. *)
Definition refusing : Coordinator.environment :=
  {| Coordinator.api_send_command := λ _ _ _,
       Raise (ApiError "API request failed: 500, error");
     Coordinator.async_request_refresh := λ _, Ok ();
     Coordinator.coordinator_set_away_mode := λ _ _, Raise (ApiError "refused") |}.

(** [coordinator.data] with the system switched on in [mode], or off. *)
Definition data_on (mode : string) : json :=
  JObj {[ "main" := JObj {[ "is_on" := JBool true; "mode" := JStr mode ]} ]}.

Definition data_off : json :=
  JObj {[ "main" := JObj {[ "is_on" := JBool false; "mode" := JStr "cool" ]} ]}.

(** [coordinator.data] with the system cooling and one zone, ["0"]. *)
Definition zone_0 : gmap string json :=
  {[ "temp" := JInt 22; "setpoint_cool" := JInt 24; "setpoint_heat" := JInt 20 ]}.

Definition data_cooling_zone : gmap string json :=
  {[ "main" := JObj {[ "is_on" := JBool true; "mode" := JStr "COOL" ]};
     "zones" := JObj {[ "0" := JObj zone_0 ]} ]}.

Definition zone_entity (data : json) : ActronClimate.ActronClimate :=
  {| ActronClimate.coordinator_data := data;
     ActronClimate.device_id := "S1";
     ActronClimate._zone_id := "0" |}.

Definition system_entity (data : json) : NeoClimate.ActronClimate :=
  {| NeoClimate.coordinator_data := data; NeoClimate.device_id := "S1" |}.


(** [async_set_temperature(temperature=22)] *)
Definition to_22 : gmap string json := {[ ATTR_TEMPERATURE := JInt 22 ]}.

(** A status source that fails, and one that answers with a list where a
    [dict] is expected. *)
Definition status_fails : ZoneSensor.environment :=
  {| ZoneSensor.get_status := λ _, Raise (ApiError "API request failed: 500, error") |}.

Definition status_is_list : ZoneSensor.environment :=
  {| ZoneSensor.get_status := λ _, Ok (JArr [JInt 1]) |}.

(** A status with the zone of [warm_sensor] in second place. *)
Definition status_two_zones : ZoneSensor.environment :=
  {| ZoneSensor.get_status := λ _,
       Ok (JObj {[ "zones" := JArr
                     [JObj {[ "zoneId" := JStr "1"; "current_temperature" := JInt 19 ]};
                      JObj {[ "zoneId" := JStr "0"; "current_temperature" := JInt 21 ]}] ]}) |}.

Definition warm_sensor : ZoneSensor.sensor :=
  ZoneSensor.set_state (ZoneSensor.init ZoneSensor.Temperature "0" "Lounge")
    (JFloat (FFinite 43 2)).

End Scenario.

(** * Properties *)

(** ** Strings *)

Module StringFacts.

Lemma append_cons (c : Ascii.ascii) (s t : string) : String c s +:+ t = String c (s +:+ t).
Proof. reflexivity. Qed.

Lemma append_empty_r (s : string) : s +:+ "" = s.
Proof. induction s as [|c s IH]; [done|]. by rewrite append_cons, IH. Qed.

Lemma append_assoc (s t u : string) : s +:+ (t +:+ u) = (s +:+ t) +:+ u.
Proof. induction s as [|c s IH]; [done|]. by rewrite !append_cons, IH. Qed.

End StringFacts.

(** ** Traces *)

Module TraceFacts.

Lemma calls_app {X} (tr1 tr2 : list (event X)) :
  calls (tr1 ++ tr2) = calls tr1 ++ calls tr2.
Proof.
  induction tr1 as [|[lvl fmt args|x] tr1 IH]; simpl; [done| |]; by rewrite IH.
Qed.

Lemma calls_log {X} (tr : list (event X)) lvl fmt args :
  calls (tr ++ [EvLog lvl fmt args]) = calls tr.
Proof. rewrite calls_app. simpl. by rewrite app_nil_r. Qed.

Lemma calls_call {X} (tr : list (event X)) x :
  calls (tr ++ [EvCall x]) = calls tr ++ [x].
Proof. by rewrite calls_app. Qed.

End TraceFacts.

Create Rewrite HintDb trace.
#[local] Hint Rewrite @TraceFacts.calls_log @TraceFacts.calls_call
  @TraceFacts.calls_app @app_nil_r : trace.

(** Unfolds the monad down to the state-passing functions. *)
Ltac run :=
  unfold async_def, try_except, mbind, mret, M_bind, M_ret, bind, ret, raise,
    lift, log, perform, get_self, set_self; simpl.

(** ** The API client *)

Module ApiFacts.

Import Api.

Section Facts.

Context (env : environment).

(** Without a truthy token, a request that requires authentication raises
    before anything else happens: object and trace are as they were. *)
Lemma make_request_no_token url method headers data json_ self tr :
  truthy (bearer_token self) = false →
  _make_request env url method headers data json_ true self tr
  = (Raise (AuthenticationError "Not authenticated"), self, tr).
Proof.
  intros Hfalsy. unfold _make_request. run. by rewrite Hfalsy.
Qed.

(** C1: while [bearer_token] is [None], [_make_request] with
    [auth_required] true, and with it [get_devices], [get_ac_status] and
    [send_command], raises [AuthenticationError]; the client is unchanged and
    no request has been added to the calls of the trace. *)
Theorem unauthenticated_calls_fail_fast (self : ActronApi) (tr : list (event call)) :
  bearer_token self = JNull →
  (∀ url method headers data json_,
     _make_request env url method headers data json_ true self tr
     = (Raise (AuthenticationError "Not authenticated"), self, tr))
  ∧ (∃ tr', get_devices env self tr
            = (Raise (AuthenticationError "Not authenticated"), self, tr')
            ∧ calls tr' = calls tr)
  ∧ (∀ serial, ∃ tr', get_ac_status env serial self tr
            = (Raise (AuthenticationError "Not authenticated"), self, tr')
            ∧ calls tr' = calls tr)
  ∧ (∀ serial command, ∃ tr', send_command env serial command self tr
            = (Raise (AuthenticationError "Not authenticated"), self, tr')
            ∧ calls tr' = calls tr).
Proof.
  intros Hnone.
  assert (Hfalsy : truthy (bearer_token self) = false) by by rewrite Hnone.
  repeat split.
  - intros. by apply make_request_no_token.
  - eexists. unfold get_devices. run.
    rewrite make_request_no_token by done. simpl.
    split; [reflexivity|]. by autorewrite with trace.
  - intros serial. eexists. unfold get_ac_status. run.
    rewrite make_request_no_token by done. simpl.
    split; [reflexivity|]. by autorewrite with trace.
  - intros serial command. eexists. unfold send_command. run.
    rewrite make_request_no_token by done. simpl.
    split; [reflexivity|]. by autorewrite with trace.
Qed.

Lemma occurs_in_middle (a s b : string) : occurs_in s (a +:+ s +:+ b).
Proof. by exists a, b. Qed.

Lemma occurs_in_end (a s : string) : occurs_in s (a +:+ s).
Proof. exists a, "". by rewrite StringFacts.append_empty_r. Qed.

(** C2: once [_make_request] gets past the token check, a response whose
    status is not 200 makes it raise [ApiError] with a message that contains
    the status code and the body text, and an [aiohttp.ClientError] raised by
    the request, or while the body of the response is read, is turned into
    an [ApiError]. *)
Theorem failures_raise_ApiError url method headers data json_ auth_required
    (self : ActronApi) (tr : list (event call)) :
  auth_required && negb (truthy (bearer_token self)) = false →
  let answer :=
    session_request env (at_request tr url method)
      (request_of url method headers data json_ auth_required self) in
  let raised :=
    (_make_request env url method headers data json_ auth_required self tr).1.1 in
  (∀ resp body,
     answer = Ok resp → status resp ≠ 200%Z → text resp = Ok body →
     raised = Raise (ApiError ("API request failed: " +:+ pretty (status resp)
                               +:+ ", " +:+ body))
     ∧ ∃ msg, raised = Raise (ApiError msg)
              ∧ occurs_in (pretty (status resp)) msg ∧ occurs_in body msg)
  ∧ (∀ m, answer = Raise (ClientError m) →
          raised = Raise (ApiError ("Network error during API request: " +:+ m)))
  ∧ (∀ resp m,
       answer = Ok resp → status resp = 200%Z →
       json_body resp = Raise (ClientError m) →
       raised = Raise (ApiError ("Network error during API request: " +:+ m)))
  ∧ (∀ resp m,
       answer = Ok resp → status resp ≠ 200%Z →
       text resp = Raise (ClientError m) →
       raised = Raise (ApiError ("Network error during API request: " +:+ m))).
Proof.
  intros Hpast answer raised. subst answer raised.
  unfold _make_request, at_request. run. rewrite Hpast.
  split; [|split; [|split]].
  - intros resp body -> Hst Htext. apply Z.eqb_neq in Hst.
    rewrite Hst, Htext. simpl. split; [reflexivity|].
    eexists. split; [reflexivity|]. split.
    + apply occurs_in_middle.
    + rewrite !StringFacts.append_assoc. apply occurs_in_end.
  - intros m ->. reflexivity.
  - intros resp m -> Hst Hjson. apply Z.eqb_eq in Hst. rewrite Hst, Hjson.
    reflexivity.
  - intros resp m -> Hst Htext. apply Z.eqb_neq in Hst. rewrite Hst, Htext.
    reflexivity.
Qed.

(** [_make_request] never touches the client. *)
Lemma make_request_self url method headers data json_ auth_required
    (self : ActronApi) (tr : list (event call)) :
  (_make_request env url method headers data json_ auth_required self tr).1.2 = self.
Proof.
  unfold _make_request. run. repeat (case_match; simplify_eq/=); done.
Qed.

(** Past the token check it issues exactly one request. *)
Lemma make_request_calls url method headers data json_ auth_required
    (self : ActronApi) (tr : list (event call)) :
  auth_required && negb (truthy (bearer_token self)) = false →
  calls (_make_request env url method headers data json_ auth_required self tr).2
  = calls tr ++ [Request (request_of url method headers data json_ auth_required self)].
Proof.
  intros Hpast. unfold _make_request. run. rewrite Hpast.
  repeat (case_match; simplify_eq/=); by autorewrite with trace.
Qed.

(** C5: with a token held, [send_command] issues one POST whose JSON body is
    [{"command": inner}], where [inner] is the given mapping with ["type"]
    set to the command tag; for [{"UserAirconSettings.isOn": True}] that is
    [{"command": {"UserAirconSettings.isOn": true, "type": <tag>}}]. *)
Theorem send_command_posts_envelope serial (command : gmap string json)
    (self : ActronApi) (tr : list (event call)) :
  truthy (bearer_token self) = true →
  ∃ inner : gmap string json,
    calls (send_command env serial command self tr).2
    = calls tr ++
      [Request {| req_method := "POST";
                  req_url := API_URL env +:+
                             "/api/v0/client/ac-systems/cmds/send?serial=" +:+ serial;
                  req_headers := {[ "Authorization" := HBearer (bearer_token self) ]};
                  req_data := None;
                  req_json := Some (JObj {[ "command" := JObj inner ]}) |}]
    ∧ inner !! "type" = Some (JStr (CMD_SET_SETTINGS env))
    ∧ (∀ field, field ≠ "type" → inner !! field = command !! field)
    ∧ (command = {[ "UserAirconSettings.isOn" := JBool true ]} →
       inner = {[ "UserAirconSettings.isOn" := JBool true;
                  "type" := JStr (CMD_SET_SETTINGS env) ]}).
Proof.
  intros Htoken. exists (<["type" := JStr (CMD_SET_SETTINGS env)]> command).
  split; [|split; [|split]].
  - unfold send_command. run.
    match goal with
    | |- context [_make_request env ?u ?m ?h ?d ?j ?a self ?t] =>
        pose proof (make_request_calls u m h d j a self t) as Hcalls;
        destruct (_make_request env u m h d j a self t) as [[[r|e] s'] tr']
    end; simpl in *; rewrite Hcalls by (by rewrite Htoken);
      autorewrite with trace; unfold request_of, command_envelope; simpl;
      by rewrite insert_empty.
  - apply lookup_insert_eq.
  - intros field Hfield. by apply lookup_insert_ne.
  - intros ->. by apply insert_insert_ne.
Qed.

(** The descriptor of a vendor record that is a [dict]. *)
Lemma device_of_obj (system : gmap string json) :
  device_of (JObj system)
  = Ok {[ "serial" := default (JStr "Unknown") (system !! "serial");
          "name" := default (JStr "Unknown Device") (system !! "description");
          "type" := default (JStr "Unknown") (system !! "type") ]}.
Proof. reflexivity. Qed.

Lemma collect_devices_objs (systems : list (gmap string json)) devices :
  ∃ ds, collect_devices (JObj <$> systems) devices = Ok (devices ++ ds)
        ∧ length ds = length systems
        ∧ ∀ i system, systems !! i = Some system →
            ∃ d, ds !! i = Some d ∧ device_of (JObj system) = Ok d.
Proof.
  revert devices. induction systems as [|system systems IH]; intros devices.
  - exists []. simpl. rewrite app_nil_r. split; [done|]. split; [done|].
    intros i system. by rewrite lookup_nil.
  - rewrite fmap_cons. cbn [collect_devices]. rewrite device_of_obj.
    cbn [mbind result_bind].
    destruct (IH (devices ++
      [{[ "serial" := default (JStr "Unknown") (system !! "serial");
          "name" := default (JStr "Unknown Device") (system !! "description");
          "type" := default (JStr "Unknown") (system !! "type") ]}]))
      as (ds & Hds & Hlen & Hith).
    eexists (_ :: ds). rewrite Hds, <- app_assoc. simpl.
    split; [reflexivity|]. split; [by rewrite Hlen|].
    intros [|i] system' Hi; simpl in *.
    + eexists. split; [reflexivity|]. by simplify_eq.
    + by apply Hith.
Qed.

(** When the request of [get_devices] returns a document, the method
    returns what [parse_devices] makes of it. *)
Lemma get_devices_parsed (self : ActronApi) (tr : list (event call)) response devices :
  (devices_response env self tr).1.1 = Ok response →
  parse_devices response = Ok devices →
  (get_devices env self tr).1.1 = Ok devices.
Proof.
  unfold devices_response, get_devices. run.
  destruct (_make_request _ _ _ _ _ _ _ _ _) as [[[r|e] s'] tr']; simpl; [|done].
  intros [= ->] ->. reflexivity.
Qed.

(** C6, as the code has it: [get_devices] returns an empty list when the
    document has no [_embedded] key, no [ac-system] key under it, or an
    empty [ac-system] list; otherwise it returns one descriptor per listed
    system, in order, whose [serial] and [type] are the record's, or
    ["Unknown"] when missing, and whose [name] is the record's
    [description], or ["Unknown Device"] when that is missing. *)
Theorem get_devices_defaults (self : ActronApi) (tr : list (event call))
    (doc : gmap string json) :
  (devices_response env self tr).1.1 = Ok (JObj doc) →
  let devices := (get_devices env self tr).1.1 in
  (doc !! "_embedded" = None → devices = Ok [])
  ∧ (∀ embedded, doc !! "_embedded" = Some (JObj embedded) →
       embedded !! "ac-system" = None → devices = Ok [])
  ∧ (∀ embedded, doc !! "_embedded" = Some (JObj embedded) →
       embedded !! "ac-system" = Some (JArr []) → devices = Ok [])
  ∧ (∀ embedded (systems : list (gmap string json)),
       doc !! "_embedded" = Some (JObj embedded) →
       embedded !! "ac-system" = Some (JArr (JObj <$> systems)) →
       ∃ ds, devices = Ok ds ∧ length ds = length systems
             ∧ ∀ i system, systems !! i = Some system →
                 ∃ d : gmap string json,
                   ds !! i = Some d
                   ∧ d !! "serial" = Some (default (JStr "Unknown") (system !! "serial"))
                   ∧ d !! "name"
                     = Some (default (JStr "Unknown Device") (system !! "description"))
                   ∧ d !! "type" = Some (default (JStr "Unknown") (system !! "type"))).
Proof.
  intros Hdoc devices. subst devices.
  split; [|split; [|split]].
  - intros Hnone. apply (get_devices_parsed _ _ _ _ Hdoc).
    unfold parse_devices. simpl. rewrite Hnone. reflexivity.
  - intros embedded Hemb Hnone. apply (get_devices_parsed _ _ _ _ Hdoc).
    unfold parse_devices. simpl. rewrite Hemb. simpl. rewrite Hnone. reflexivity.
  - intros embedded Hemb Hnil. apply (get_devices_parsed _ _ _ _ Hdoc).
    unfold parse_devices. simpl. rewrite Hemb. simpl. rewrite Hnil. reflexivity.
  - intros embedded systems Hemb Hsys.
    destruct (collect_devices_objs systems []) as (ds & Hds & Hlen & Hith).
    exists ds. split; [|split; [done|]].
    + apply (get_devices_parsed _ _ _ _ Hdoc).
      unfold parse_devices. simpl. rewrite Hemb. simpl. rewrite Hsys. simpl.
      exact Hds.
    + intros i system Hi. destruct (Hith i system Hi) as (d & Hd & Hof).
      exists d. split; [done|]. rewrite device_of_obj in Hof.
      injection Hof as <-. done.
Qed.

Lemma request_pairing_token_self (self : ActronApi) (tr : list (event call)) :
  (_request_pairing_token env self tr).1.2 = self.
Proof.
  unfold _request_pairing_token. run.
  match goal with
  | |- context [_make_request env ?u ?m ?h ?d ?j ?a self ?t] =>
      pose proof (make_request_self u m h d j a self t) as Hself;
      destruct (_make_request env u m h d j a self t) as [[[r|e] s'] tr']
  end; simpl in *; [|done].
  by destruct (py_getitem r "pairingToken").
Qed.

Lemma request_bearer_token_self pairing_token (self : ActronApi)
    (tr : list (event call)) :
  (_request_bearer_token env pairing_token self tr).1.2 = self.
Proof.
  unfold _request_bearer_token. run.
  match goal with
  | |- context [_make_request env ?u ?m ?h ?d ?j ?a self ?t] =>
      pose proof (make_request_self u m h d j a self t) as Hself;
      destruct (_make_request env u m h d j a self t) as [[[r|e] s'] tr']
  end; simpl in *; [|done].
  by destruct (py_getitem r "access_token").
Qed.

(** C9: when [authenticate] raises, the client holds the bearer token it
    held before the call. *)
Theorem failed_authenticate_keeps_token (self self' : ActronApi)
    (tr tr' : list (event call)) (e : exn) :
  authenticate env self tr = (Raise e, self', tr') →
  bearer_token self' = bearer_token self.
Proof.
  unfold authenticate. run.
  pose proof (request_pairing_token_self self tr) as Hfirst.
  destruct (_request_pairing_token env self tr) as [[[pairing|e1] s1] t1];
    simpl in Hfirst; subst s1.
  - pose proof (request_bearer_token_self pairing self t1) as Hsecond.
    destruct (_request_bearer_token env pairing self t1) as [[[token|e2] s2] t2];
      simpl in Hsecond; subst s2; [done|].
    destruct (is_Exception e2); simpl; by intros [= _ <- _].
  - destruct (is_Exception e1); simpl; by intros [= _ <- _].
Qed.

Lemma request_pairing_token_calls (self : ActronApi) (tr : list (event call)) :
  calls (_request_pairing_token env self tr).2
  = calls tr ++ [Request (pairing_request env self)].
Proof.
  unfold _request_pairing_token. run.
  match goal with
  | |- context [_make_request env ?u ?m ?h ?d ?j ?a self ?t] =>
      pose proof (make_request_calls u m h d j a self t eq_refl) as Hcalls;
      destruct (_make_request env u m h d j a self t) as [[[r|e] s'] tr']
  end; simpl in *; [destruct (py_getitem r "pairingToken")|];
    simpl; rewrite Hcalls; by autorewrite with trace.
Qed.

Lemma request_bearer_token_calls pairing_token (self : ActronApi)
    (tr : list (event call)) :
  calls (_request_bearer_token env pairing_token self tr).2
  = calls tr ++ [Request (token_request env pairing_token self)].
Proof.
  unfold _request_bearer_token. run.
  match goal with
  | |- context [_make_request env ?u ?m ?h ?d ?j ?a self ?t] =>
      pose proof (make_request_calls u m h d j a self t eq_refl) as Hcalls;
      destruct (_make_request env u m h d j a self t) as [[[r|e] s'] tr']
  end; simpl in *; [destruct (py_getitem r "access_token")|];
    simpl; rewrite Hcalls; by autorewrite with trace.
Qed.

(** [authenticate] issues the pairing request once and, when that gave a
    pairing token, the token request once: no step is tried again. *)
Lemma authenticate_no_retry (self : ActronApi) (tr : list (event call)) :
  calls (authenticate env self tr).2 = calls tr ++ [Request (pairing_request env self)]
  ∨ ∃ pairing_token,
      calls (authenticate env self tr).2
      = calls tr ++ [Request (pairing_request env self);
                     Request (token_request env pairing_token self)].
Proof.
  unfold authenticate. run.
  pose proof (request_pairing_token_self self tr) as Hself1.
  pose proof (request_pairing_token_calls self tr) as Hcalls1.
  destruct (_request_pairing_token env self tr) as [[[pairing|e1] s1] t1];
    simpl in *; subst s1.
  - right. exists pairing.
    pose proof (request_bearer_token_calls pairing self t1) as Hcalls2.
    destruct (_request_bearer_token env pairing self t1) as [[[token|e2] s2] t2];
      simpl in *; [|destruct (is_Exception e2); simpl];
      autorewrite with trace; simpl; rewrite ?app_nil_r, Hcalls2, Hcalls1;
      by rewrite <- app_assoc.
  - left. destruct (is_Exception e1); simpl; autorewrite with trace; simpl;
      by rewrite ?app_nil_r.
Qed.

Lemma surface_not_AuthenticationError (e : exn) :
  is_AuthenticationError e = false → is_AuthenticationError (surface e) = false.
Proof. by destruct e. Qed.

Lemma getitem_not_AuthenticationError (c : json) key (e : exn) :
  py_getitem c key = Raise e → is_AuthenticationError e = false.
Proof.
  destruct c; simpl; try by intros [= <-].
  destruct (_ !! key); by intros [= <-].
Qed.

Lemma make_request_unauthenticated_raises url method headers data json_
    (self : ActronApi) (tr : list (event call)) (e : exn) :
  session_raises_no_AuthenticationError env →
  (_make_request env url method headers data json_ false self tr).1.1 = Raise e →
  is_AuthenticationError e = false.
Proof.
  intros [Hsession Hbody]. unfold _make_request. run.
  destruct (session_request env _ _) as [resp|e0] eqn:Hanswer; simpl.
  - destruct (status resp =? 200)%Z; simpl.
    + destruct (json_body resp) as [doc|e1] eqn:Hjson; simpl; [done|].
      pose proof (Hbody _ _ _ e1 Hanswer (or_intror Hjson)) as Hno.
      destruct (is_ClientError e1); simpl; intros [= <-]; [done|].
      by apply surface_not_AuthenticationError.
    + destruct (text resp) as [body|e1] eqn:Htext; simpl; [by intros [= <-]|].
      pose proof (Hbody _ _ _ e1 Hanswer (or_introl Htext)) as Hno.
      destruct (is_ClientError e1); simpl; intros [= <-]; [done|].
      by apply surface_not_AuthenticationError.
  - pose proof (Hsession _ _ _ Hanswer) as Hno.
    destruct (is_ClientError e0); simpl; intros [= <-]; [done|].
    by apply surface_not_AuthenticationError.
Qed.

(** X10: Whatever makes [authenticate] fail, what it raises is not an
    [AuthenticationError]: the failure of the step is raised again as it is. *)
Lemma authenticate_raises_no_AuthenticationError (self : ActronApi)
    (tr : list (event call)) (e : exn) :
  session_raises_no_AuthenticationError env →
  (authenticate env self tr).1.1 = Raise e →
  is_AuthenticationError e = false.
Proof.
  intros Hsession.
  assert (Hstep : ∀ url data key s t e',
            (bind (_make_request env url "POST" (Some form_headers) (Some data)
                     None false)
               (λ response, lift (py_getitem response key)) s t).1.1 = Raise e' →
            is_AuthenticationError e' = false).
  { intros url data key s t e'. unfold bind, lift.
    pose proof (make_request_unauthenticated_raises url "POST" (Some form_headers)
                  (Some data) None s t) as Hreq.
    destruct (_make_request env _ _ _ _ _ _ s t) as [[[r|e0] s1] t1]; simpl in *.
    - apply getitem_not_AuthenticationError.
    - intros [= <-]. by apply Hreq. }
  assert (Hpairing : ∀ s t e',
            (_request_pairing_token env s t).1.1 = Raise e' →
            is_AuthenticationError e' = false).
  { intros s t e'. unfold _request_pairing_token.
    unfold async_def at 1, mbind, M_bind, get_self, log. unfold bind at 1 2. simpl.
    pose proof (Hstep (pairing_url env) (pairing_data s) "pairingToken" s
                  (t ++ [EvLog Debug "Requesting pairing token from: {url}"
                           [AStr (pairing_url env)]])) as Hs.
    destruct (bind _ _ s _) as [[[r|e0] s1] t1]; simpl in *; [done|].
    intros [= <-]. apply surface_not_AuthenticationError. by apply Hs. }
  assert (Htoken : ∀ p s t e',
            (_request_bearer_token env p s t).1.1 = Raise e' →
            is_AuthenticationError e' = false).
  { intros p s t e'. unfold _request_bearer_token.
    unfold async_def at 1, mbind, M_bind, log. unfold bind at 1. simpl.
    pose proof (Hstep (token_url env) (token_data p) "access_token" s
                  (t ++ [EvLog Debug "Requesting bearer token from: {url}"
                           [AStr (token_url env)]])) as Hs.
    destruct (bind _ _ s _) as [[[r|e0] s1] t1]; simpl in *; [done|].
    intros [= <-]. apply surface_not_AuthenticationError. by apply Hs. }
  unfold authenticate. run.
  pose proof (Hpairing self tr) as H1.
  destruct (_request_pairing_token env self tr) as [[[pairing|e1] s1] t1];
    simpl in *.
  - pose proof (Htoken pairing s1 t1) as H2.
    destruct (_request_bearer_token env pairing s1 t1) as [[[token|e2] s2] t2];
      simpl in *; [done|].
    destruct (is_Exception e2); simpl; intros [= <-];
      apply surface_not_AuthenticationError; by apply H2.
  - destruct (is_Exception e1); simpl; intros [= <-];
      apply surface_not_AuthenticationError; by apply H1.
Qed.

End Facts.

(** C4, at a server that answers 401: [authenticate] fails in its first
    step with the [ApiError] of [_make_request], not an
    [AuthenticationError], after one request; at a server that refuses the
    token exchange it fails in its second step the same way, after two. *)
Theorem authenticate_failure_is_ApiError :
  (authenticate (Scenario.server Scenario.unauthorized) Scenario.fresh_client []).1.1
  = Raise (ApiError "API request failed: 401, Unauthorized")
  ∧ length (calls (authenticate (Scenario.server Scenario.unauthorized)
                     Scenario.fresh_client []).2) = 1
  ∧ (authenticate Scenario.refuses_exchange Scenario.fresh_client []).1.1
    = Raise (ApiError "API request failed: 401, Unauthorized")
  ∧ length (calls (authenticate Scenario.refuses_exchange
                     Scenario.fresh_client []).2) = 2.
Proof. vm_compute. done. Qed.

Lemma unauthenticated_calls_fail_fast_witness :
  bearer_token Scenario.fresh_client = JNull
  ∧ ∃ tr', get_ac_status (Scenario.server Scenario.not_found) "S1"
             Scenario.fresh_client []
           = (Raise (AuthenticationError "Not authenticated"),
              Scenario.fresh_client, tr')
           ∧ calls tr' = [].
Proof.
  split; [reflexivity|].
  destruct (unauthenticated_calls_fail_fast (Scenario.server Scenario.not_found)
              Scenario.fresh_client [] eq_refl) as (_ & _ & Hstatus & _).
  exact (Hstatus "S1").
Defined.

Lemma failures_raise_ApiError_witness :
  ∃ msg,
    (_make_request (Scenario.server Scenario.not_found)
       "https://vendor.example/api/v0/client/ac-systems" "GET" None None None true
       Scenario.paired_client []).1.1 = Raise (ApiError msg)
    ∧ occurs_in "404" msg ∧ occurs_in "not found" msg.
Proof.
  destruct (failures_raise_ApiError (Scenario.server Scenario.not_found)
              "https://vendor.example/api/v0/client/ac-systems" "GET"
              None None None true Scenario.paired_client [] eq_refl)
    as (Hstatus & _).
  destruct (Hstatus Scenario.not_found "not found" eq_refl ltac:(discriminate) eq_refl)
    as (_ & Hmsg).
  exact Hmsg.
Defined.

Lemma send_command_posts_envelope_witness :
  truthy (bearer_token Scenario.paired_client) = true
  ∧ ∃ inner : gmap string json,
      calls (send_command (Scenario.server (Scenario.ok_json JNull)) "S1"
               {[ "UserAirconSettings.isOn" := JBool true ]}
               Scenario.paired_client []).2
      = [Request {| req_method := "POST";
                    req_url := "https://vendor.example" +:+
                               "/api/v0/client/ac-systems/cmds/send?serial=" +:+ "S1";
                    req_headers := {[ "Authorization" := HBearer (JStr "token") ]};
                    req_data := None;
                    req_json := Some (JObj {[ "command" := JObj inner ]}) |}]
      ∧ inner = {[ "UserAirconSettings.isOn" := JBool true;
                   "type" := JStr "set-settings" ]}.
Proof.
  split; [reflexivity|].
  destruct (send_command_posts_envelope (Scenario.server (Scenario.ok_json JNull))
              "S1" {[ "UserAirconSettings.isOn" := JBool true ]}
              Scenario.paired_client [] eq_refl)
    as (inner & Hcalls & _ & _ & Hinner).
  exists inner. split; [exact Hcalls | exact (Hinner eq_refl)].
Defined.

(** C6 as stated fails on the name: for a listed system that gives no field
    at all, the descriptor's [name] is ["Unknown Device"], not ["Unknown"]. *)
Lemma name_default_counterexample :
  ∃ d : gmap string json,
    (get_devices (Scenario.server (Scenario.ok_json Scenario.one_bare_system))
       Scenario.paired_client []).1.1 = Ok [d]
    ∧ d !! "serial" = Some (JStr "Unknown")
    ∧ d !! "type" = Some (JStr "Unknown")
    ∧ d !! "name" = Some (JStr "Unknown Device")
    ∧ d !! "name" ≠ Some (JStr "Unknown").
Proof.
  eexists. split; [vm_compute; reflexivity|].
  repeat split; try (vm_compute; reflexivity). vm_compute. discriminate.
Qed.

Lemma get_devices_defaults_witness :
  ∃ ds, (get_devices (Scenario.server (Scenario.ok_json Scenario.one_bare_system))
           Scenario.paired_client []).1.1 = Ok ds
        ∧ length ds = 1
        ∧ ∃ d : gmap string json,
            ds !! 0 = Some d
            ∧ d !! "serial" = Some (JStr "Unknown")
            ∧ d !! "name" = Some (JStr "Unknown Device")
            ∧ d !! "type" = Some (JStr "Unknown").
Proof.
  destruct (get_devices_defaults (Scenario.server (Scenario.ok_json Scenario.one_bare_system))
              Scenario.paired_client []
              {[ "_embedded" := JObj {[ "ac-system" := JArr [JObj ∅] ]} ]} eq_refl)
    as (_ & _ & _ & Hlisted).
  destruct (Hlisted {[ "ac-system" := JArr [JObj ∅] ]} [∅] eq_refl eq_refl)
    as (ds & Hds & Hlen & Hith).
  exists ds. split; [exact Hds|]. split; [exact Hlen|].
  exact (Hith 0 ∅ eq_refl).
Defined.

Lemma failed_authenticate_keeps_token_witness :
  ∃ e self' tr',
    authenticate (Scenario.server Scenario.unauthorized) Scenario.paired_client []
    = (Raise e, self', tr')
    ∧ bearer_token self' = bearer_token Scenario.paired_client.
Proof.
  assert (Hrun : ∃ out, authenticate (Scenario.server Scenario.unauthorized)
                          Scenario.paired_client [] = out
                        ∧ out.1.1 = Raise (ApiError "API request failed: 401, Unauthorized")).
  { eexists. split; [reflexivity|]. vm_compute. reflexivity. }
  destruct Hrun as ([[[u|e] s'] t'] & Hout & Hres); simpl in Hres; [discriminate|].
  exists e, s', t'. split; [exact Hout|].
  exact (failed_authenticate_keeps_token _ _ _ _ _ _ Hout).
Defined.

End ApiFacts.

(** ** The climate entities *)

Module ClimateFacts.

Import Coordinator.

Lemma commands_app (tr1 tr2 : list (event call)) :
  commands (tr1 ++ tr2) = commands tr1 ++ commands tr2.
Proof. unfold commands. by rewrite TraceFacts.calls_app, omap_app. Qed.

Lemma commands_log (tr : list (event call)) lvl fmt args :
  commands (tr ++ [EvLog lvl fmt args]) = commands tr.
Proof. rewrite commands_app. unfold commands. simpl. by rewrite app_nil_r. Qed.

Lemma commands_send (tr : list (event call)) serial command :
  commands (tr ++ [EvCall (SendCommand serial command)])
  = commands tr ++ [(serial, command)].
Proof. by rewrite commands_app. Qed.

Lemma commands_refresh (tr : list (event call)) :
  commands (tr ++ [EvCall RequestRefresh]) = commands tr.
Proof. rewrite commands_app. unfold commands. simpl. by rewrite app_nil_r. Qed.

#[local] Hint Rewrite commands_log commands_send commands_refresh : trace.


(** Closes one leaf of a run against [command_then_refresh]. *)
Ltac settle_run :=
  split;
  [ autorewrite with trace; by rewrite <- ?app_assoc
  | by repeat match goal with u : () |- _ => destruct u end ].

(** C7: each command operation of [actron/climate.py] sends its command to
    the API first and asks for the refresh only after it.
    [async_set_fan_mode] always has a command; [async_set_hvac_mode] has one
    for [OFF] and for every mode with a vendor name; [async_set_temperature]
    has one when a temperature is given in cooling or heating mode.  In each
    case the command is the first call; when the API accepts it exactly one
    refresh follows and, if that refresh fails, the failure is raised and
    nothing more is called, so the command stays as sent; when the API
    refuses it no refresh is requested.  Where [async_set_temperature] has
    no command to send it asks for the refresh alone. *)
Theorem command_precedes_refresh (env : environment)
    (self : ActronClimate.ActronClimate) (tr : list (event call)) :
  (∀ fan_mode,
     command_then_refresh env (ActronClimate.device_id self)
       {[ "UserAirconSettings.FanMode" := JStr fan_mode ]} tr
       (ActronClimate.async_set_fan_mode env fan_mode self tr))
  ∧ command_then_refresh env (ActronClimate.device_id self)
      {[ "UserAirconSettings.isOn" := JBool false ]} tr
      (ActronClimate.async_set_hvac_mode env OFF self tr)
  ∧ (∀ hvac_mode name,
       hvac_mode ≠ OFF → ActronClimate.vendor_mode hvac_mode = Ok name →
       command_then_refresh env (ActronClimate.device_id self)
         {[ "UserAirconSettings.isOn" := JBool true;
            "UserAirconSettings.Mode" := JStr name ]} tr
         (ActronClimate.async_set_hvac_mode env hvac_mode self tr))
  ∧ (∀ kwargs temp,
       kwargs !! ATTR_TEMPERATURE = Some temp →
       (ActronClimate.hvac_mode self = Ok COOL →
        command_then_refresh env (ActronClimate.device_id self)
          {[ "RemoteZoneInfo[" +:+ ActronClimate._zone_id self +:+
             "].TemperatureSetpoint_Cool_oC" := temp ]} tr
          (ActronClimate.async_set_temperature env kwargs self tr))
       ∧ (ActronClimate.hvac_mode self = Ok HEAT →
          command_then_refresh env (ActronClimate.device_id self)
            {[ "RemoteZoneInfo[" +:+ ActronClimate._zone_id self +:+
               "].TemperatureSetpoint_Heat_oC" := temp ]} tr
            (ActronClimate.async_set_temperature env kwargs self tr))
       ∧ (∀ mode, ActronClimate.hvac_mode self = Ok mode →
                  mode ≠ COOL → mode ≠ HEAT →
                  calls (ActronClimate.async_set_temperature env kwargs self tr).2
                  = calls tr ++ [RequestRefresh]))
  ∧ (∀ kwargs,
       kwargs !! ATTR_TEMPERATURE = None →
       calls (ActronClimate.async_set_temperature env kwargs self tr).2
       = calls tr ++ [RequestRefresh]).
Proof.
  split; [|split; [|split; [|split]]].
  - intros fan_mode.
    unfold command_then_refresh, ActronClimate.async_set_fan_mode,
      ActronClimate.set_fan_mode_body, send_to_api, request_refresh.
    run. repeat (case_match; simplify_eq/=); settle_run.
  - unfold command_then_refresh, ActronClimate.async_set_hvac_mode,
      ActronClimate.set_hvac_mode_body, send_to_api, request_refresh.
    run. repeat (case_match; simplify_eq/=); settle_run.
  - intros hvac_mode name Hon Hname.
    unfold command_then_refresh, ActronClimate.async_set_hvac_mode,
      ActronClimate.set_hvac_mode_body, send_to_api, request_refresh.
    run. rewrite bool_decide_eq_false_2 by done. rewrite Hname. simpl.
    repeat (case_match; simplify_eq/=); settle_run.
  - intros kwargs temp Htemp. split; [|split].
    + intros Hmode.
      unfold command_then_refresh, ActronClimate.async_set_temperature,
        ActronClimate.set_temperature_body, send_to_api, request_refresh,
        ActronClimate.setpoint_cool.
      run. rewrite Htemp, Hmode. simpl.
      repeat (case_match; simplify_eq/=); settle_run.
    + intros Hmode.
      unfold command_then_refresh, ActronClimate.async_set_temperature,
        ActronClimate.set_temperature_body, send_to_api, request_refresh,
        ActronClimate.setpoint_heat.
      run. rewrite Htemp, Hmode. simpl.
      repeat (case_match; simplify_eq/=); settle_run.
    + intros mode Hmode Hcool Hheat.
      unfold ActronClimate.async_set_temperature,
        ActronClimate.set_temperature_body, send_to_api, request_refresh.
      run. rewrite Htemp, Hmode. simpl.
      rewrite !bool_decide_eq_false_2 by done. simpl.
      repeat (case_match; simplify_eq/=); by autorewrite with trace.
  - intros kwargs Hnone.
    unfold ActronClimate.async_set_temperature,
      ActronClimate.set_temperature_body, request_refresh.
    run. rewrite Hnone. simpl.
    repeat (case_match; simplify_eq/=); by autorewrite with trace.
Qed.

(** A refresh that fails after an accepted command: the failure is raised,
    the command is the only one sent. *)
Example refresh_failure_after_command :
  (ActronClimate.async_set_hvac_mode Scenario.refresh_fails COOL
     (Scenario.zone_entity Scenario.data_off) []).1.1
  = Raise (OtherException "UpdateFailed" "timeout")
  ∧ calls (ActronClimate.async_set_hvac_mode Scenario.refresh_fails COOL
             (Scenario.zone_entity Scenario.data_off) []).2
    = [SendCommand "S1" {[ "UserAirconSettings.isOn" := JBool true;
                           "UserAirconSettings.Mode" := JStr "COOL" ]};
       RequestRefresh].
Proof. split; vm_compute; reflexivity. Qed.

(** A mode the entity has no vendor name for: nothing is sent, and the
    failed lookup leaves the coroutine as a [RuntimeError]. *)
Example unsupported_mode_sends_nothing :
  ActronClimate.async_set_hvac_mode Scenario.accepting DRY
    (Scenario.zone_entity Scenario.data_off) []
  = (Raise (RuntimeError "coroutine raised StopIteration"),
     Scenario.zone_entity Scenario.data_off,
     [EvLog Error "Failed to set HVAC mode: %s" [AExn StopIteration]]).
Proof. reflexivity. Qed.


Lemma command_precedes_refresh_witness :
  calls (ActronClimate.async_set_fan_mode Scenario.refresh_fails "HIGH"
           (Scenario.zone_entity Scenario.data_off) []).2
  = [] ++ [SendCommand "S1" {[ "UserAirconSettings.FanMode" := JStr "HIGH" ]};
           RequestRefresh]
  ∧ (ActronClimate.async_set_fan_mode Scenario.refresh_fails "HIGH"
       (Scenario.zone_entity Scenario.data_off) []).1.1
    = Raise (surface (OtherException "UpdateFailed" "timeout"))
  ∧ calls (ActronClimate.async_set_hvac_mode Scenario.refusing HEAT
             (Scenario.zone_entity Scenario.data_off) []).2
    = [] ++ [SendCommand "S1" {[ "UserAirconSettings.isOn" := JBool true;
                                 "UserAirconSettings.Mode" := JStr "HEAT" ]}]
  ∧ calls (ActronClimate.async_set_temperature Scenario.accepting Scenario.to_22
             (Scenario.zone_entity (Scenario.data_on "COOL")) []).2
    = [] ++ [SendCommand "S1"
               {[ "RemoteZoneInfo[" +:+ "0" +:+ "].TemperatureSetpoint_Cool_oC"
                  := JInt 22 ]};
             RequestRefresh].
Proof.
  destruct (command_precedes_refresh Scenario.refresh_fails
              (Scenario.zone_entity Scenario.data_off) [])
    as (Hfan & _).
  destruct (command_precedes_refresh Scenario.refusing
              (Scenario.zone_entity Scenario.data_off) [])
    as (_ & _ & Hmode & _).
  destruct (command_precedes_refresh Scenario.accepting
              (Scenario.zone_entity (Scenario.data_on "COOL")) [])
    as (_ & _ & _ & Htemp & _).
  destruct (Hfan "HIGH") as (Hfan_calls & Hfan_raise).
  destruct (Hmode HEAT "HEAT" ltac:(discriminate) eq_refl) as (Hmode_calls & _).
  destruct (Htemp Scenario.to_22 (JInt 22) eq_refl) as (Hcool & _).
  destruct (Hcool eq_refl) as (Hcool_calls & _).
  split; [exact Hfan_calls|]. split; [exact Hfan_raise|].
  split; [exact Hmode_calls | exact Hcool_calls].
Defined.

End ClimateFacts.

(** ** Failures: the zone sensors and the climate commands *)

Module FailureFacts.

(** A scan that raises has not stored anything: the only assignment to
    [_state] ends the loop. *)
Lemma scan_raise_keeps_state (k : ZoneSensor.kind) (zones : list json)
    (self self1 : ZoneSensor.sensor) (tr tr1 : list (event ZoneSensor.call)) e :
  ZoneSensor.scan k zones self tr = (Raise e, self1, tr1) →
  self1 = self ∧ tr1 = tr.
Proof.
  induction zones as [|zone zones IH]; simpl.
  - run. done.
  - run. destruct (py_get zone "zoneId" JNull) as [zone_id|e0]; simpl.
    + destruct (is_JStr (ZoneSensor._zone_id self) zone_id).
      * destruct (py_get zone (ZoneSensor.field k) JNull); simpl; [done|].
        by intros [= _ <- <-].
      * apply IH.
    + by intros [= _ <- <-].
Qed.

Lemma update_body_raise_keeps_state (env : ZoneSensor.environment)
    (k : ZoneSensor.kind) (self self1 : ZoneSensor.sensor)
    (tr tr1 : list (event ZoneSensor.call)) e :
  ZoneSensor.update_body env k self tr = (Raise e, self1, tr1) →
  self1 = self.
Proof.
  unfold ZoneSensor.update_body. run.
  destruct (ZoneSensor.get_status env tr) as [status|e0]; simpl.
  - destruct (truthy status); [|done].
    destruct (py_get status "zones" (JArr [])) as [zones|e1]; simpl.
    + destruct (py_iter zones) as [zs|e2]; simpl.
      * intros Hscan. by apply scan_raise_keeps_state in Hscan as [-> _].
      * by intros [= _ <- _].
    + by intros [= _ <- _].
  - by intros [= _ <- _].
Qed.

(** C8: when the body of a zone sensor's [async_update] raises an
    [Exception], the method logs it and returns normally with the sensor as
    it was, [_state] included; when the body of a climate command method of
    [actron/climate.py] raises one, the method logs it and raises it again
    (a [StopIteration] reaches the caller of the coroutine as
    [RuntimeError], see [surface]). *)
Theorem sensors_swallow_climate_reraises (e : exn) :
  is_Exception e = true →
  (∀ (env : ZoneSensor.environment) k self tr self1 tr1,
     ZoneSensor.update_body env k self tr = (Raise e, self1, tr1) →
     ZoneSensor.async_update env k self tr
     = (Ok (), self,
        tr1 ++ [EvLog Error (ZoneSensor.failure_message k)
                  [AStr (ZoneSensor._zone_id self); AExn e]]))
  ∧ (∀ (env : Coordinator.environment) (self : ActronClimate.ActronClimate)
       tr self1 tr1,
       (∀ kwargs,
          ActronClimate.set_temperature_body env kwargs self tr = (Raise e, self1, tr1) →
          ActronClimate.async_set_temperature env kwargs self tr
          = (Raise (surface e), self1,
             tr1 ++ [EvLog Error "Failed to set temperature: %s" [AExn e]]))
       ∧ (∀ hvac_mode,
            ActronClimate.set_hvac_mode_body env hvac_mode self tr = (Raise e, self1, tr1) →
            ActronClimate.async_set_hvac_mode env hvac_mode self tr
            = (Raise (surface e), self1,
               tr1 ++ [EvLog Error "Failed to set HVAC mode: %s" [AExn e]]))
       ∧ (∀ fan_mode,
            ActronClimate.set_fan_mode_body env fan_mode self tr = (Raise e, self1, tr1) →
            ActronClimate.async_set_fan_mode env fan_mode self tr
            = (Raise (surface e), self1,
               tr1 ++ [EvLog Error "Failed to set fan mode: %s" [AExn e]]))
       ∧ (∀ preset_mode,
            ActronClimate.set_preset_mode_body env preset_mode self tr
            = (Raise e, self1, tr1) →
            ActronClimate.async_set_preset_mode env preset_mode self tr
            = (Raise (surface e), self1,
               tr1 ++ [EvLog Error "Failed to set preset mode: %s" [AExn e]]))).
Proof.
  intros Hcaught. split.
  - intros env k self tr self1 tr1 Hbody.
    pose proof (update_body_raise_keeps_state _ _ _ _ _ _ _ Hbody) as ->.
    unfold ZoneSensor.async_update. run. by rewrite Hbody, Hcaught.
  - intros env self tr self1 tr1. repeat split; intros arg Hbody.
    + unfold ActronClimate.async_set_temperature. run. by rewrite Hbody, Hcaught.
    + unfold ActronClimate.async_set_hvac_mode. run. by rewrite Hbody, Hcaught.
    + unfold ActronClimate.async_set_fan_mode. run. by rewrite Hbody, Hcaught.
    + unfold ActronClimate.async_set_preset_mode. run. by rewrite Hbody, Hcaught.
Qed.

Example update_reads_own_zone :
  (ZoneSensor.async_update Scenario.status_two_zones ZoneSensor.Temperature
     Scenario.warm_sensor []).1
  = (Ok (), ZoneSensor.set_state Scenario.warm_sensor (JInt 21)).
Proof. vm_compute. reflexivity. Qed.

Example update_failure_keeps_state :
  ZoneSensor.async_update Scenario.status_fails ZoneSensor.Humidity
    Scenario.warm_sensor []
  = (Ok (), Scenario.warm_sensor,
     [EvCall ZoneSensor.GetStatus;
      EvLog Error "Failed to update humidity sensor for zone {self._zone_id}: {e}"
        [AStr "0"; AExn (ApiError "API request failed: 500, error")]]).
Proof. reflexivity. Qed.

Lemma sensors_swallow_climate_reraises_witness :
  ZoneSensor.async_update Scenario.status_is_list ZoneSensor.Temperature
    Scenario.warm_sensor []
  = (Ok (), Scenario.warm_sensor,
     [EvCall ZoneSensor.GetStatus] ++
     [EvLog Error "Failed to update temperature sensor for zone {self._zone_id}: {e}"
        [AStr "0"; AExn AttributeError]])
  ∧ ActronClimate.async_set_fan_mode Scenario.refusing "HIGH"
      (Scenario.zone_entity (Scenario.data_on "COOL")) []
    = (Raise (ApiError "API request failed: 500, error"),
       Scenario.zone_entity (Scenario.data_on "COOL"),
       [EvCall (Coordinator.SendCommand "S1"
                  {[ "UserAirconSettings.FanMode" := JStr "HIGH" ]})] ++
       [EvLog Error "Failed to set fan mode: %s"
          [AExn (ApiError "API request failed: 500, error")]]).
Proof.
  split.
  - destruct (sensors_swallow_climate_reraises AttributeError eq_refl)
      as (Hsensor & _).
    exact (Hsensor Scenario.status_is_list ZoneSensor.Temperature
             Scenario.warm_sensor [] Scenario.warm_sensor
             [EvCall ZoneSensor.GetStatus] eq_refl).
  - destruct (sensors_swallow_climate_reraises
                (ApiError "API request failed: 500, error") eq_refl)
      as (_ & Hclimate).
    destruct (Hclimate Scenario.refusing
                (Scenario.zone_entity (Scenario.data_on "COOL")) []
                (Scenario.zone_entity (Scenario.data_on "COOL"))
                [EvCall (Coordinator.SendCommand "S1"
                           {[ "UserAirconSettings.FanMode" := JStr "HIGH" ]})])
      as (_ & _ & Hfan & _).
    exact (Hfan "HIGH" eq_refl).
Defined.

End FailureFacts.

(** ** [_format_uptime] *)

Module UptimeFacts.

Import Uptime.

(** Anything that is not an [int] or a [float], and any negative number,
    gives ["Unknown"]. *)
Lemma format_uptime_unknown (seconds : json) :
  is_int_or_float seconds = false ∨ lt_zero seconds = true →
  _format_uptime seconds = Ok UNKNOWN_VALUE.
Proof.
  intros [Hkind|Hneg]; unfold _format_uptime.
  - by rewrite Hkind.
  - rewrite Hneg. by rewrite orb_true_r.
Qed.

(** X25: On a non-negative [int] the result is made of the days, hours, minutes
    and seconds that add up to the input, zero components left out, and a
    lone ["0s"] when all are zero. *)
Lemma format_uptime_int (total : Z) :
  (0 ≤ total)%Z →
  ∃ days hours minutes seconds : Z,
    (total = days * 86400 + hours * 3600 + minutes * 60 + seconds)%Z
    ∧ (0 ≤ days ∧ 0 ≤ hours < 24 ∧ 0 ≤ minutes < 60 ∧ 0 ≤ seconds < 60)%Z
    ∧ _format_uptime (JInt total)
      = Ok (String.concat " "
              (let parts := part (0 <? days)%Z days "d"
                            ++ part (0 <? hours)%Z hours "h"
                            ++ part (0 <? minutes)%Z minutes "m" in
               parts ++ part ((0 <? seconds)%Z || bool_decide (parts = []))
                          seconds "s")).
Proof.
  intros Hpos.
  exists (total `div` 86400)%Z, ((total `mod` 86400) `div` 3600)%Z,
    (((total `mod` 86400) `mod` 3600) `div` 60)%Z,
    (((total `mod` 86400) `mod` 3600) `mod` 60)%Z.
  split; [|split].
  - pose proof (Z.div_mod total 86400).
    pose proof (Z.div_mod (total `mod` 86400) 3600).
    pose proof (Z.div_mod ((total `mod` 86400) `mod` 3600) 60).
    lia.
  - pose proof (Z.mod_pos_bound total 86400).
    pose proof (Z.mod_pos_bound (total `mod` 86400) 3600).
    pose proof (Z.mod_pos_bound ((total `mod` 86400) `mod` 3600) 60).
    repeat split; try lia.
    + apply Z.div_pos; lia.
    + apply Z.div_pos; lia.
    + apply Z.div_lt_upper_bound; lia.
    + apply Z.div_pos; lia.
    + apply Z.div_lt_upper_bound; lia.
  - unfold _format_uptime, format_parts. simpl.
    assert ((total <? 0)%Z = false) as -> by lia.
    simpl. by rewrite <- !app_assoc.
Qed.

(** C10, where it fails: [_format_uptime] lets NaN and positive infinity
    past its guard and then raises from [int()], so it is not total. *)
Theorem format_uptime_nan_inf_raise :
  _format_uptime (JFloat FNaN) = Raise ValueError
  ∧ _format_uptime (JFloat (FInf false)) = Raise OverflowError.
Proof. split; reflexivity. Qed.

Example format_uptime_93784 : _format_uptime (JInt 93784) = Ok "1d 2h 3m 4s".
Proof. vm_compute. reflexivity. Qed.

Example format_uptime_zero : _format_uptime (JInt 0) = Ok "0s".
Proof. vm_compute. reflexivity. Qed.

Example format_uptime_3600 : _format_uptime (JInt 3600) = Ok "1h".
Proof. vm_compute. reflexivity. Qed.

Example format_uptime_float : _format_uptime (JFloat (FFinite 181 2)) = Ok "1m 30s".
Proof. vm_compute. reflexivity. Qed.

Example format_uptime_none : _format_uptime JNull = Ok "Unknown".
Proof. reflexivity. Qed.

End UptimeFacts.

(** ** More on the API client *)

Module ApiMore.

Import Api.

Section Facts.

Context (env : environment).

(** The outcome of a request that is answered 200 with a readable body. *)
Lemma make_request_ok url method headers data json_ auth_required
    (self : ActronApi) (tr : list (event call)) resp doc :
  auth_required && negb (truthy (bearer_token self)) = false →
  session_request env (at_request tr url method)
    (request_of url method headers data json_ auth_required self) = Ok resp →
  status resp = 200%Z →
  json_body resp = Ok doc →
  _make_request env url method headers data json_ auth_required self tr
  = (Ok doc, self,
     at_request tr url method ++
     [EvCall (Request (request_of url method headers data json_ auth_required self));
      EvLog Debug "Request successful, status code: {response.status}" [AInt 200]]).
Proof.
  intros Hpast Hanswer Hstatus Hjson. unfold _make_request, at_request in *. run.
  rewrite Hpast, Hanswer, Hstatus, Hjson. simpl. by rewrite <- !app_assoc.
Qed.

(** X1: On a 200 response the result is what [response.json()] gives: the
    document, an [ApiError] for a client error, and any other exception (a
    body that is not JSON) as it is, not wrapped in [ApiError]. *)
Theorem ok_response_gives_json_outcome url method headers data json_ auth_required
    (self : ActronApi) (tr : list (event call)) resp :
  auth_required && negb (truthy (bearer_token self)) = false →
  session_request env (at_request tr url method)
    (request_of url method headers data json_ auth_required self) = Ok resp →
  status resp = 200%Z →
  (_make_request env url method headers data json_ auth_required self tr).1
  = (match json_body resp with
     | Ok doc => Ok doc
     | Raise e =>
         if is_ClientError e
         then Raise (ApiError ("Network error during API request: " +:+ str e))
         else Raise (surface e)
     end, self).
Proof.
  intros Hpast Hanswer Hstatus. unfold _make_request, at_request in *. run.
  rewrite Hpast, Hanswer, Hstatus. simpl.
  destruct (json_body resp) as [doc|e]; simpl; [done|].
  by destruct (is_ClientError e).
Qed.

(** X2: The token check of [_make_request] is a truth test: the call fails
    fast, leaving no trace, exactly when the held token is falsy ([None],
    but also an empty string handed out by the server). *)
Theorem fails_fast_iff_token_falsy url method headers data json_
    (self : ActronApi) (tr : list (event call)) :
  _make_request env url method headers data json_ true self tr
  = (Raise (AuthenticationError "Not authenticated"), self, tr)
  ↔ truthy (bearer_token self) = false.
Proof.
  split.
  - intros Hout. destruct (truthy (bearer_token self)) eqn:Htoken; [|done].
    pose proof (ApiFacts.make_request_calls env url method headers data json_ true
                  self tr) as Hcalls.
    rewrite Hout in Hcalls. simpl in Hcalls. rewrite Htoken in Hcalls.
    specialize (Hcalls eq_refl).
    apply (f_equal length) in Hcalls. rewrite length_app in Hcalls. simpl in Hcalls.
    lia.
  - apply ApiFacts.make_request_no_token.
Qed.

(** X3: [get_devices], [get_ac_status] and [send_command] never write to the
    client: whatever comes back, the token and the credentials are as before. *)
Theorem calls_keep_client (self : ActronApi) (tr : list (event call)) :
  (get_devices env self tr).1.2 = self
  ∧ (∀ serial, (get_ac_status env serial self tr).1.2 = self)
  ∧ (∀ serial command, (send_command env serial command self tr).1.2 = self).
Proof.
  split; [|split]; intros; [unfold get_devices|unfold get_ac_status|unfold send_command];
    run;
    match goal with
    | |- context [_make_request env ?u ?m ?h ?d ?j ?a self ?t] =>
        pose proof (ApiFacts.make_request_self env u m h d j a self t) as Hself;
        destruct (_make_request env u m h d j a self t) as [[[r|e] s'] tr']
    end; simpl in *; try done.
  by destruct (parse_devices r).
Qed.

(** X4: With a token held, the two read calls issue one GET each, with the
    bearer header and no body; the status URL ends in the serial. *)
Theorem read_calls_issue_one_get serial (self : ActronApi) (tr : list (event call)) :
  truthy (bearer_token self) = true →
  calls (get_devices env self tr).2
  = calls tr ++
    [Request {| req_method := "GET";
                req_url := API_URL env +:+ "/api/v0/client/ac-systems?includeNeo=true";
                req_headers := {[ "Authorization" := HBearer (bearer_token self) ]};
                req_data := None; req_json := None |}]
  ∧ calls (get_ac_status env serial self tr).2
    = calls tr ++
      [Request {| req_method := "GET";
                  req_url := API_URL env +:+
                             "/api/v0/client/ac-systems/status/latest?serial=" +:+ serial;
                  req_headers := {[ "Authorization" := HBearer (bearer_token self) ]};
                  req_data := None; req_json := None |}].
Proof.
  intros Htoken. split; [unfold get_devices|unfold get_ac_status]; run;
    match goal with
    | |- context [_make_request env ?u ?m ?h ?d ?j ?a self ?t] =>
        pose proof (ApiFacts.make_request_calls env u m h d j a self t) as Hcalls;
        destruct (_make_request env u m h d j a self t) as [[[r|e] s'] tr']
    end; simpl in *; try destruct (parse_devices r); simpl;
    autorewrite with trace; rewrite Hcalls by (by rewrite Htoken);
    autorewrite with trace; unfold request_of, devices_url; simpl;
    by rewrite insert_empty.
Qed.

(** The pairing step against a server that answers it with a pairing token. *)
Lemma request_pairing_token_ok (self : ActronApi) (tr : list (event call))
    resp (doc : gmap string json) pairing :
  (∀ h, session_request env h (pairing_request env self) = Ok resp) →
  status resp = 200%Z →
  json_body resp = Ok (JObj doc) →
  doc !! "pairingToken" = Some pairing →
  ∃ tr', _request_pairing_token env self tr = (Ok pairing, self, tr')
         ∧ calls tr' = calls tr ++ [Request (pairing_request env self)].
Proof.
  intros Hanswer Hstatus Hjson Hkey. unfold _request_pairing_token.
  unfold async_def at 1, mbind, M_bind, get_self, log. unfold bind at 1 2 3. simpl.
  erewrite make_request_ok; [|done|apply Hanswer|done|exact Hjson].
  unfold lift. simpl. rewrite Hkey. eexists. split; [reflexivity|].
  unfold at_request, pairing_request. by autorewrite with trace.
Qed.

(** The token step against a server that answers it with a bearer token. *)
Lemma request_bearer_token_ok pairing (self : ActronApi) (tr : list (event call))
    resp (doc : gmap string json) token :
  (∀ h, session_request env h (token_request env pairing self) = Ok resp) →
  status resp = 200%Z →
  json_body resp = Ok (JObj doc) →
  doc !! "access_token" = Some token →
  ∃ tr', _request_bearer_token env pairing self tr = (Ok token, self, tr')
         ∧ calls tr' = calls tr ++ [Request (token_request env pairing self)].
Proof.
  intros Hanswer Hstatus Hjson Hkey. unfold _request_bearer_token.
  unfold async_def at 1, mbind, M_bind, log. unfold bind at 1 2. simpl.
  erewrite make_request_ok; [|done|apply Hanswer|done|exact Hjson].
  unfold lift. simpl. rewrite Hkey. eexists. split; [reflexivity|].
  unfold at_request, token_request. by autorewrite with trace.
Qed.

Lemma authenticate_installs_access_token_aux (self : ActronApi)
    (tr : list (event call)) resp1 resp2 (doc1 doc2 : gmap string json)
    pairing token :
  (∀ h, session_request env h (pairing_request env self) = Ok resp1) →
  status resp1 = 200%Z → json_body resp1 = Ok (JObj doc1) →
  doc1 !! "pairingToken" = Some pairing →
  (∀ h, session_request env h (token_request env pairing self) = Ok resp2) →
  status resp2 = 200%Z → json_body resp2 = Ok (JObj doc2) →
  doc2 !! "access_token" = Some token →
  ∃ tr', authenticate env self tr = (Ok (), set_bearer_token self token, tr').
Proof.
  intros Ha1 Hs1 Hj1 Hk1 Ha2 Hs2 Hj2 Hk2.
  destruct (request_pairing_token_ok self tr _ _ _ Ha1 Hs1 Hj1 Hk1)
    as (t1 & Hfirst & _).
  destruct (request_bearer_token_ok pairing self t1 _ _ _ Ha2 Hs2 Hj2 Hk2)
    as (t2 & Hsecond & _).
  unfold authenticate. run. rewrite Hfirst, Hsecond. simpl. by eexists.
Qed.

(** X5: When the server answers the pairing request with a pairing token and
    the token request made with that pairing token with an access token,
    [authenticate] returns, the client holds the access token (credentials
    untouched), and exactly these two requests were made, in this order. *)
Theorem authenticate_installs_access_token (self : ActronApi)
    (tr : list (event call)) resp1 resp2 (doc1 doc2 : gmap string json)
    pairing token :
  (∀ h, session_request env h (pairing_request env self) = Ok resp1) →
  status resp1 = 200%Z → json_body resp1 = Ok (JObj doc1) →
  doc1 !! "pairingToken" = Some pairing →
  (∀ h, session_request env h (token_request env pairing self) = Ok resp2) →
  status resp2 = 200%Z → json_body resp2 = Ok (JObj doc2) →
  doc2 !! "access_token" = Some token →
  (authenticate env self tr).1 = (Ok (), set_bearer_token self token)
  ∧ calls (authenticate env self tr).2
    = calls tr ++ [Request (pairing_request env self);
                   Request (token_request env pairing self)].
Proof.
  intros Ha1 Hs1 Hj1 Hk1 Ha2 Hs2 Hj2 Hk2.
  destruct (request_pairing_token_ok self tr _ _ _ Ha1 Hs1 Hj1 Hk1)
    as (t1 & Hfirst & Hcalls1).
  destruct (request_bearer_token_ok pairing self t1 _ _ _ Ha2 Hs2 Hj2 Hk2)
    as (t2 & Hsecond & Hcalls2).
  unfold authenticate. run. rewrite Hfirst, Hsecond. simpl.
  split; [done|]. rewrite Hcalls2, Hcalls1. by rewrite <- app_assoc.
Qed.

(** X6: A pairing answer that is a JSON object without ["pairingToken"] makes
    [authenticate] raise [KeyError]; the token endpoint is never contacted
    and the client is as before. *)
Theorem authenticate_missing_pairing_token (self : ActronApi)
    (tr : list (event call)) resp (doc : gmap string json) :
  (∀ h, session_request env h (pairing_request env self) = Ok resp) →
  status resp = 200%Z → json_body resp = Ok (JObj doc) →
  doc !! "pairingToken" = None →
  (authenticate env self tr).1 = (Raise (KeyError "pairingToken"), self)
  ∧ calls (authenticate env self tr).2
    = calls tr ++ [Request (pairing_request env self)].
Proof.
  intros Hanswer Hstatus Hjson Hkey.
  pose proof (ApiFacts.request_pairing_token_calls env self tr) as Hcalls.
  assert (Hstep : (_request_pairing_token env self tr).1
                  = (Raise (KeyError "pairingToken"), self)).
  { unfold _request_pairing_token.
    unfold async_def at 1, mbind, M_bind, get_self, log. unfold bind at 1 2 3. simpl.
    erewrite make_request_ok; [|done|apply Hanswer|done|exact Hjson].
    unfold lift. simpl. by rewrite Hkey. }
  unfold authenticate. run.
  destruct (_request_pairing_token env self tr) as [[r s1] t1].
  simpl in Hstep, Hcalls. injection Hstep as -> ->. simpl.
  split; [done|]. by autorewrite with trace.
Qed.

(** X7: The requests of [authenticate] are POSTs of form data that carry no
    [Authorization] header, whatever token the client already holds. *)
Theorem token_exchange_sends_no_bearer (self : ActronApi) (tr : list (event call)) :
  ∃ added,
    calls (authenticate env self tr).2 = calls tr ++ added
    ∧ Forall (λ c, match c with
                   | Request r =>
                       req_headers r !! "Authorization" = None
                       ∧ req_method r = "POST"
                       ∧ req_json r = None
                       ∧ is_Some (req_data r)
                   end) added.
Proof.
  destruct (ApiFacts.authenticate_no_retry env self tr) as [->|(p & ->)];
    eexists; (split; [reflexivity|]);
    repeat constructor; by eexists.
Qed.

Lemma collect_devices_stray (systems : list json) devices i x :
  systems !! i = Some x →
  (∀ m, x ≠ JObj m) →
  collect_devices systems devices = Raise AttributeError.
Proof.
  revert devices i. induction systems as [|system systems IH]; intros devices i Hi Hx.
  - by rewrite lookup_nil in Hi.
  - cbn [collect_devices].
    destruct system as [| | | | | |m]; try reflexivity.
    destruct i as [|i]; simpl in Hi.
    + injection Hi as <-. by destruct (Hx m).
    + rewrite ApiFacts.device_of_obj. cbn [mbind result_bind]. by eapply IH.
Qed.

(** X8: A listed system that is not a JSON object makes [get_devices] raise
    [AttributeError]: no partial list is returned. *)
Theorem get_devices_rejects_stray_system (self : ActronApi) (tr : list (event call))
    (doc embedded : gmap string json) systems i x :
  (devices_response env self tr).1.1 = Ok (JObj doc) →
  doc !! "_embedded" = Some (JObj embedded) →
  embedded !! "ac-system" = Some (JArr systems) →
  systems !! i = Some x →
  (∀ m, x ≠ JObj m) →
  (get_devices env self tr).1.1 = Raise AttributeError.
Proof.
  intros Hdoc Hemb Hsys Hi Hx.
  assert (Hparse : parse_devices (JObj doc) = Raise AttributeError).
  { unfold parse_devices. simpl. rewrite Hemb. simpl. rewrite Hsys. simpl.
    by eapply collect_devices_stray. }
  revert Hdoc. unfold devices_response, get_devices. run.
  destruct (_make_request _ _ _ _ _ _ _ _ _) as [[[r|e] s'] tr']; simpl; [|done].
  intros [= ->]. by rewrite Hparse.
Qed.

(** X9: [authenticate] followed by [get_ac_status]: when the server pairs, hands
    out a truthy access token and answers the status request made with that
    token by a document, the status call returns the document. *)
Theorem authenticate_then_status serial (self : ActronApi) (tr : list (event call))
    resp1 resp2 resp3 (doc1 doc2 : gmap string json) pairing token document :
  (∀ h, session_request env h (pairing_request env self) = Ok resp1) →
  status resp1 = 200%Z → json_body resp1 = Ok (JObj doc1) →
  doc1 !! "pairingToken" = Some pairing →
  (∀ h, session_request env h (token_request env pairing self) = Ok resp2) →
  status resp2 = 200%Z → json_body resp2 = Ok (JObj doc2) →
  doc2 !! "access_token" = Some token →
  truthy token = true →
  (∀ h, session_request env h
          (status_request env serial (set_bearer_token self token)) = Ok resp3) →
  status resp3 = 200%Z → json_body resp3 = Ok document →
  let authenticated := authenticate env self tr in
  authenticated.1.1 = Ok ()
  ∧ (get_ac_status env serial authenticated.1.2 authenticated.2).1.1 = Ok document.
Proof.
  intros Ha1 Hs1 Hj1 Hk1 Ha2 Hs2 Hj2 Hk2 Htoken Ha3 Hs3 Hj3 authenticated.
  destruct (authenticate_installs_access_token_aux self tr _ _ _ _ _ _
              Ha1 Hs1 Hj1 Hk1 Ha2 Hs2 Hj2 Hk2) as (t2 & Hauth).
  subst authenticated. rewrite Hauth. simpl. split; [done|].
  unfold get_ac_status. run.
  erewrite make_request_ok; [done| |apply Ha3|done|exact Hj3].
  simpl. by rewrite Htoken.
Qed.

End Facts.

Lemma ok_response_gives_json_outcome_witness :
  (_make_request (Scenario.server (Scenario.ok_json Scenario.status_document))
     "https://vendor.example/api/v0/client/ac-systems" "GET" None None None true
     Scenario.paired_client []).1
  = (Ok Scenario.status_document, Scenario.paired_client).
Proof.
  exact (ok_response_gives_json_outcome
           (Scenario.server (Scenario.ok_json Scenario.status_document))
           "https://vendor.example/api/v0/client/ac-systems" "GET" None None None
           true Scenario.paired_client []
           (Scenario.ok_json Scenario.status_document) eq_refl eq_refl eq_refl).
Defined.

Lemma read_calls_issue_one_get_witness :
  calls (get_ac_status Scenario.vendor "S1" Scenario.paired_client []).2
  = [] ++
    [Request {| req_method := "GET";
                req_url := "https://vendor.example" +:+
                           "/api/v0/client/ac-systems/status/latest?serial=" +:+ "S1";
                req_headers := {[ "Authorization" := HBearer (JStr "token") ]};
                req_data := None; req_json := None |}].
Proof.
  destruct (read_calls_issue_one_get Scenario.vendor "S1" Scenario.paired_client []
              eq_refl) as (_ & Hstatus).
  exact Hstatus.
Defined.

Lemma authenticate_installs_access_token_witness :
  (authenticate Scenario.vendor Scenario.fresh_client []).1
  = (Ok (), Scenario.paired_client)
  ∧ length (calls (authenticate Scenario.vendor Scenario.fresh_client []).2) = 2.
Proof.
  destruct (authenticate_installs_access_token Scenario.vendor Scenario.fresh_client []
              (Scenario.ok_json (JObj {[ "pairingToken" := JStr "pairing" ]}))
              (Scenario.ok_json (JObj {[ "access_token" := JStr "token" ]}))
              {[ "pairingToken" := JStr "pairing" ]}
              {[ "access_token" := JStr "token" ]}
              (JStr "pairing") (JStr "token")
              (λ _, eq_refl) eq_refl eq_refl eq_refl
              (λ _, eq_refl) eq_refl eq_refl eq_refl) as (Hout & Hcalls).
  split; [exact Hout|]. rewrite Hcalls. reflexivity.
Defined.

Lemma authenticate_missing_pairing_token_witness :
  (authenticate Scenario.pairs_without_token Scenario.paired_client []).1
  = (Raise (KeyError "pairingToken"), Scenario.paired_client)
  ∧ length (calls (authenticate Scenario.pairs_without_token
                     Scenario.paired_client []).2) = 1.
Proof.
  destruct (authenticate_missing_pairing_token Scenario.pairs_without_token
              Scenario.paired_client []
              (Scenario.ok_json (JObj {[ "error" := JStr "locked" ]}))
              {[ "error" := JStr "locked" ]}
              (λ _, eq_refl) eq_refl eq_refl eq_refl) as (Hout & Hcalls).
  split; [exact Hout|]. rewrite Hcalls. reflexivity.
Defined.

Lemma get_devices_rejects_stray_system_witness :
  (get_devices (Scenario.server (Scenario.ok_json Scenario.one_stray_system))
     Scenario.paired_client []).1.1 = Raise AttributeError.
Proof.
  apply (get_devices_rejects_stray_system
           (Scenario.server (Scenario.ok_json Scenario.one_stray_system))
           Scenario.paired_client []
           {[ "_embedded" := JObj {[ "ac-system" :=
                JArr [JObj {[ "serial" := JStr "S1" ]}; JInt 7] ]} ]}
           {[ "ac-system" := JArr [JObj {[ "serial" := JStr "S1" ]}; JInt 7] ]}
           [JObj {[ "serial" := JStr "S1" ]}; JInt 7] 1 (JInt 7)
           eq_refl eq_refl eq_refl eq_refl).
  intros m. discriminate.
Defined.

Lemma authenticate_then_status_witness :
  (authenticate Scenario.vendor Scenario.fresh_client []).1.1 = Ok ()
  ∧ (get_ac_status Scenario.vendor "S1"
       (authenticate Scenario.vendor Scenario.fresh_client []).1.2
       (authenticate Scenario.vendor Scenario.fresh_client []).2).1.1
    = Ok Scenario.status_document.
Proof.
  exact (authenticate_then_status Scenario.vendor "S1" Scenario.fresh_client []
           (Scenario.ok_json (JObj {[ "pairingToken" := JStr "pairing" ]}))
           (Scenario.ok_json (JObj {[ "access_token" := JStr "token" ]}))
           (Scenario.ok_json Scenario.status_document)
           {[ "pairingToken" := JStr "pairing" ]}
           {[ "access_token" := JStr "token" ]}
           (JStr "pairing") (JStr "token") Scenario.status_document
           (λ _, eq_refl) eq_refl eq_refl eq_refl
           (λ _, eq_refl) eq_refl eq_refl eq_refl eq_refl
           (λ _, eq_refl) eq_refl eq_refl).
Defined.

Lemma authenticate_raises_no_AuthenticationError_witness :
  ∃ e, (authenticate (Scenario.server Scenario.unauthorized)
          Scenario.fresh_client []).1.1 = Raise e
       ∧ is_AuthenticationError e = false.
Proof.
  exists (ApiError "API request failed: 401, Unauthorized").
  assert (Hrun : (authenticate (Scenario.server Scenario.unauthorized)
                    Scenario.fresh_client []).1.1
                 = Raise (ApiError "API request failed: 401, Unauthorized"))
    by (vm_compute; reflexivity).
  split; [exact Hrun|].
  apply (ApiFacts.authenticate_raises_no_AuthenticationError
           (Scenario.server Scenario.unauthorized) Scenario.fresh_client [] _).
  - split.
    + intros h r e. discriminate.
    + intros h r resp e [= <-] [[= <-]|[= <-]]; reflexivity.
  - exact Hrun.
Defined.

End ApiMore.

(** ** More on the climate entities *)

Module ClimateMore.

Import Coordinator.

#[local] Hint Rewrite ClimateFacts.commands_log ClimateFacts.commands_send
  ClimateFacts.commands_refresh : trace.

(** X11: The two vocabularies of [actron/climate.py] agree: the vendor name found
    for a host mode maps back to that mode, every entry of [HVAC_MODES] is
    found again, and the lookup fails exactly for the two host modes the
    table does not list. *)
Theorem mode_vocabulary_round_trip :
  (∀ mode name, ActronClimate.vendor_mode mode = Ok name →
     ActronClimate.HVAC_MODES_get (JStr name) OFF = Ok mode)
  ∧ (∀ name mode, (name, mode) ∈ ActronClimate.HVAC_MODES →
       ActronClimate.vendor_mode mode = Ok name)
  ∧ (∀ mode, ActronClimate.vendor_mode mode = Raise StopIteration
             ↔ mode = HEAT_COOL ∨ mode = DRY).
Proof.
  split; [|split].
  - intros [] name; vm_compute; intros [= <-]; reflexivity.
  - intros name mode Hin. unfold ActronClimate.HVAC_MODES in Hin.
    repeat (apply elem_of_cons in Hin as [[= -> ->]|Hin]; [reflexivity|]).
    by apply elem_of_nil in Hin.
  - intros []; vm_compute; split; try discriminate; try tauto;
      intros [|]; discriminate.
Qed.

(** What [hvac_mode] can raise is a [KeyError] or a [TypeError]. *)
Lemma hvac_mode_raises (self : ActronClimate.ActronClimate) e :
  ActronClimate.hvac_mode self = Raise e → is_Exception e = true.
Proof.
  unfold ActronClimate.hvac_mode, py_getitem, ActronClimate.HVAC_MODES_get.
  unfold mbind, result_bind.
  repeat (case_match; simplify_eq/=); try done; by intros [= <-].
Qed.

Section Facts.

Context (env : environment).

(** X12: [async_set_hvac_mode] for [OFF] only switches the system off, leaving
    the stored mode alone; for a mode with a vendor name it switches the
    system on and names the mode, and that name reads back as the mode. *)
Theorem set_hvac_mode_command (self : ActronClimate.ActronClimate)
    (tr : list (event call)) (mode : HVACMode) :
  (mode = OFF →
   commands (ActronClimate.async_set_hvac_mode env mode self tr).2
   = commands tr ++
     [(ActronClimate.device_id self, {[ "UserAirconSettings.isOn" := JBool false ]})])
  ∧ (∀ name, mode ≠ OFF → ActronClimate.vendor_mode mode = Ok name →
       commands (ActronClimate.async_set_hvac_mode env mode self tr).2
       = commands tr ++
         [(ActronClimate.device_id self,
           {[ "UserAirconSettings.isOn" := JBool true;
              "UserAirconSettings.Mode" := JStr name ]})]
       ∧ ActronClimate.HVAC_MODES_get (JStr name) OFF = Ok mode).
Proof.
  split.
  - intros ->.
    unfold ActronClimate.async_set_hvac_mode, ActronClimate.set_hvac_mode_body,
      send_to_api, request_refresh.
    run. repeat (case_match; simplify_eq/=); by autorewrite with trace.
  - intros name Hon Hname. split.
    + unfold ActronClimate.async_set_hvac_mode, ActronClimate.set_hvac_mode_body,
        send_to_api, request_refresh.
      run. rewrite bool_decide_eq_false_2 by done. rewrite Hname. simpl.
      repeat (case_match; simplify_eq/=); by autorewrite with trace.
    + destruct mode; vm_compute in Hname; simplify_eq; reflexivity.
Qed.

(** X13: A host mode without a vendor name reaches nothing: no command, no
    refresh; the failed lookup is logged and leaves the coroutine as a
    [RuntimeError]. *)
Theorem unsupported_mode_calls_nothing (self : ActronClimate.ActronClimate)
    (tr : list (event call)) (mode : HVACMode) :
  ActronClimate.vendor_mode mode = Raise StopIteration →
  ActronClimate.async_set_hvac_mode env mode self tr
  = (Raise (RuntimeError "coroutine raised StopIteration"), self,
     tr ++ [EvLog Error "Failed to set HVAC mode: %s" [AExn StopIteration]]).
Proof.
  intros Hname.
  unfold ActronClimate.async_set_hvac_mode, ActronClimate.set_hvac_mode_body.
  run. destruct (bool_decide (mode = OFF)) eqn:Hoff.
  - apply bool_decide_eq_true in Hoff as ->. discriminate.
  - by rewrite Hname.
Qed.

(** X14: [async_set_preset_mode] makes one call, [set_away_mode], with [True] for
    the preset ["away"] and [False] for any other string, not only ["none"];
    it sends no command and asks for no refresh itself. *)
Theorem preset_mode_sets_away_flag (self : ActronClimate.ActronClimate)
    (tr : list (event call)) (preset_mode : string) :
  calls (ActronClimate.async_set_preset_mode env preset_mode self tr).2
  = calls tr ++ [SetAwayMode (String.eqb preset_mode "away")].
Proof.
  unfold ActronClimate.async_set_preset_mode, ActronClimate.set_preset_mode_body,
    call_set_away_mode, PRESET_AWAY.
  run. destruct (String.eqb preset_mode "away");
    repeat (case_match; simplify_eq/=); by autorewrite with trace.
Qed.

(** X15: [async_set_temperature] without a temperature only asks for a refresh,
    whatever the coordinator's data look like; with a temperature and data
    from which the current mode cannot be read it calls nothing and raises
    what reading the mode raised. *)
Theorem set_temperature_edge_cases (self : ActronClimate.ActronClimate)
    (tr : list (event call)) (kwargs : gmap string json) :
  (kwargs !! ATTR_TEMPERATURE = None →
   calls (ActronClimate.async_set_temperature env kwargs self tr).2
   = calls tr ++ [RequestRefresh])
  ∧ (∀ e, is_Some (kwargs !! ATTR_TEMPERATURE) →
          ActronClimate.hvac_mode self = Raise e →
          ActronClimate.async_set_temperature env kwargs self tr
          = (Raise (surface e), self,
             tr ++ [EvLog Error "Failed to set temperature: %s" [AExn e]])).
Proof.
  split.
  - intros Hnone.
    unfold ActronClimate.async_set_temperature, ActronClimate.set_temperature_body,
      request_refresh.
    run. rewrite Hnone. simpl.
    repeat (case_match; simplify_eq/=); by autorewrite with trace.
  - intros e [temp Htemp] Hmode.
    pose proof (hvac_mode_raises _ _ Hmode) as Hcaught.
    unfold ActronClimate.async_set_temperature, ActronClimate.set_temperature_body.
    run. by rewrite Htemp, Hmode, Hcaught.
Qed.

(** X16: Getter and setter agree on when a zone has a target: in a mode other
    than cooling and heating [target_temperature] is [None], without
    looking at the zone data, and [async_set_temperature] sends no command. *)
Theorem no_target_no_setpoint (self : ActronClimate.ActronClimate)
    (tr : list (event call)) (kwargs : gmap string json) (mode : HVACMode) :
  ActronClimate.hvac_mode self = Ok mode →
  mode ≠ COOL → mode ≠ HEAT →
  ActronClimate.target_temperature self = Ok JNull
  ∧ commands (ActronClimate.async_set_temperature env kwargs self tr).2
    = commands tr.
Proof.
  intros Hmode Hcool Hheat. split.
  - unfold ActronClimate.target_temperature. rewrite Hmode. simpl.
    by rewrite !bool_decide_eq_false_2.
  - unfold ActronClimate.async_set_temperature, ActronClimate.set_temperature_body,
      send_to_api, request_refresh.
    run. destruct (kwargs !! ATTR_TEMPERATURE) as [temp|]; simpl.
    + rewrite Hmode. simpl. rewrite !bool_decide_eq_false_2 by done. simpl.
      repeat (case_match; simplify_eq/=); by autorewrite with trace.
    + repeat (case_match; simplify_eq/=); by autorewrite with trace.
Qed.

(** X17: In cooling mode the target is the zone's [setpoint_cool], in heating
    mode its [setpoint_heat]; a zone missing from the data is a [KeyError]
    on the zone id. *)
Theorem target_reads_zone_setpoint (self : ActronClimate.ActronClimate)
    (data zones : gmap string json) :
  ActronClimate.coordinator_data self = JObj data →
  data !! "zones" = Some (JObj zones) →
  (ActronClimate.hvac_mode self = Ok COOL →
   ActronClimate.target_temperature self
   = match zones !! ActronClimate._zone_id self with
     | Some zone => py_getitem zone "setpoint_cool"
     | None => Raise (KeyError (ActronClimate._zone_id self))
     end)
  ∧ (ActronClimate.hvac_mode self = Ok HEAT →
     ActronClimate.target_temperature self
     = match zones !! ActronClimate._zone_id self with
       | Some zone => py_getitem zone "setpoint_heat"
       | None => Raise (KeyError (ActronClimate._zone_id self))
       end).
Proof.
  intros Hdata Hzones.
  split; intros Hmode; unfold ActronClimate.target_temperature,
    ActronClimate.zone_item; rewrite Hmode, Hdata; simpl; rewrite Hzones; simpl;
    by destruct (zones !! ActronClimate._zone_id self).
Qed.

End Facts.

(** X18: The action the entity of [actron_air_neo/climate.py] reports agrees
    with its mode: [OFF] exactly when [is_on] is falsy (the mode then reads
    ["off"]), otherwise cooling, heating or fan for the modes ["cool"],
    ["heat"], ["fan_only"] and idle for anything else. *)
Theorem hvac_action_follows_mode (self : NeoClimate.ActronClimate) (is_on : json) :
  NeoClimate.main_get self "is_on" = Ok is_on →
  (truthy is_on = false →
   NeoClimate.hvac_action self = Ok HVACAction.OFF
   ∧ NeoClimate.hvac_mode self = Ok (JStr "off"))
  ∧ (truthy is_on = true →
     ∃ mode, NeoClimate.hvac_mode self = Ok mode
       ∧ NeoClimate.hvac_action self
         = Ok (if is_JStr "cool" mode then HVACAction.COOLING
               else if is_JStr "heat" mode then HVACAction.HEATING
               else if is_JStr "fan_only" mode then HVACAction.FAN
               else HVACAction.IDLE)).
Proof.
  unfold NeoClimate.main_get, NeoClimate.hvac_action, NeoClimate.hvac_mode,
    NeoClimate.main_get.
  destruct (py_getitem (NeoClimate.coordinator_data self) "main") as [main|e];
    simpl; [|done].
  destruct main; simpl; try done. intros [= <-]. split; intros Hon; rewrite Hon; simpl.
  - done.
  - eexists. split; [reflexivity|]. simpl.
    repeat (case_match; simplify_eq/=); done.
Qed.

Lemma mode_vocabulary_round_trip_witness :
  ActronClimate.vendor_mode FAN_ONLY = Ok "FAN"
  ∧ ActronClimate.HVAC_MODES_get (JStr "FAN") OFF = Ok FAN_ONLY.
Proof.
  destruct mode_vocabulary_round_trip as (Hback & Hfound & _).
  assert (Hname : ActronClimate.vendor_mode FAN_ONLY = Ok "FAN").
  { apply Hfound. unfold ActronClimate.HVAC_MODES. set_solver. }
  split; [exact Hname | exact (Hback FAN_ONLY "FAN" Hname)].
Defined.

Lemma set_hvac_mode_command_witness :
  commands (ActronClimate.async_set_hvac_mode Scenario.accepting HEAT
              (Scenario.zone_entity Scenario.data_off) []).2
  = [] ++ [("S1", {[ "UserAirconSettings.isOn" := JBool true;
                     "UserAirconSettings.Mode" := JStr "HEAT" ]})]
  ∧ ActronClimate.HVAC_MODES_get (JStr "HEAT") OFF = Ok HEAT.
Proof.
  destruct (set_hvac_mode_command Scenario.accepting
              (Scenario.zone_entity Scenario.data_off) [] HEAT) as (_ & Hon).
  exact (Hon "HEAT" ltac:(discriminate) eq_refl).
Defined.

Lemma unsupported_mode_calls_nothing_witness :
  ActronClimate.async_set_hvac_mode Scenario.accepting HEAT_COOL
    (Scenario.zone_entity Scenario.data_off) []
  = (Raise (RuntimeError "coroutine raised StopIteration"),
     Scenario.zone_entity Scenario.data_off,
     [] ++ [EvLog Error "Failed to set HVAC mode: %s" [AExn StopIteration]]).
Proof.
  exact (unsupported_mode_calls_nothing Scenario.accepting
           (Scenario.zone_entity Scenario.data_off) [] HEAT_COOL eq_refl).
Defined.

Lemma set_temperature_edge_cases_witness :
  calls (ActronClimate.async_set_temperature Scenario.accepting ∅
           (Scenario.zone_entity JNull) []).2
  = [] ++ [RequestRefresh]
  ∧ ActronClimate.async_set_temperature Scenario.accepting Scenario.to_22
      (Scenario.zone_entity (JObj ∅)) []
    = (Raise (KeyError "main"), Scenario.zone_entity (JObj ∅),
       [] ++ [EvLog Error "Failed to set temperature: %s" [AExn (KeyError "main")]]).
Proof.
  split.
  - destruct (set_temperature_edge_cases Scenario.accepting
                (Scenario.zone_entity JNull) [] ∅) as (Hnone & _).
    exact (Hnone eq_refl).
  - destruct (set_temperature_edge_cases Scenario.accepting
                (Scenario.zone_entity (JObj ∅)) [] Scenario.to_22) as (_ & Hraise).
    exact (Hraise (KeyError "main") (ex_intro _ (JInt 22) eq_refl) eq_refl).
Defined.

Lemma no_target_no_setpoint_witness :
  ActronClimate.target_temperature (Scenario.zone_entity (Scenario.data_on "FAN"))
  = Ok JNull
  ∧ commands (ActronClimate.async_set_temperature Scenario.accepting Scenario.to_22
                (Scenario.zone_entity (Scenario.data_on "FAN")) []).2
    = [].
Proof.
  exact (no_target_no_setpoint Scenario.accepting
           (Scenario.zone_entity (Scenario.data_on "FAN")) [] Scenario.to_22
           FAN_ONLY eq_refl ltac:(discriminate) ltac:(discriminate)).
Defined.

Lemma target_reads_zone_setpoint_witness :
  ActronClimate.target_temperature
    (Scenario.zone_entity (JObj Scenario.data_cooling_zone))
  = Ok (JInt 24).
Proof.
  destruct (target_reads_zone_setpoint
              (Scenario.zone_entity (JObj Scenario.data_cooling_zone))
              Scenario.data_cooling_zone {[ "0" := JObj Scenario.zone_0 ]}
              eq_refl eq_refl) as (Hcool & _).
  exact (Hcool eq_refl).
Defined.

Lemma hvac_action_follows_mode_witness :
  NeoClimate.hvac_action (Scenario.system_entity Scenario.data_off)
  = Ok HVACAction.OFF
  ∧ ∃ mode, NeoClimate.hvac_mode (Scenario.system_entity (Scenario.data_on "fan_only"))
            = Ok mode
      ∧ NeoClimate.hvac_action (Scenario.system_entity (Scenario.data_on "fan_only"))
        = Ok (if is_JStr "cool" mode then HVACAction.COOLING
              else if is_JStr "heat" mode then HVACAction.HEATING
              else if is_JStr "fan_only" mode then HVACAction.FAN
              else HVACAction.IDLE).
Proof.
  split.
  - destruct (hvac_action_follows_mode (Scenario.system_entity Scenario.data_off)
                (JBool false) eq_refl) as (Hoff & _).
    destruct (Hoff eq_refl) as (Haction & _). exact Haction.
  - destruct (hvac_action_follows_mode
                (Scenario.system_entity (Scenario.data_on "fan_only"))
                (JBool true) eq_refl) as (_ & Hon).
    exact (Hon eq_refl).
Defined.

End ClimateMore.

(** ** More on the zone sensors *)

Module SensorMore.

Import ZoneSensor.

(** A zone record that is not the sensor's own. *)
Lemma other_zone_skipped (zone : gmap string json) (zone_id : string) :
  zone !! "zoneId" ≠ Some (JStr zone_id) →
  is_JStr zone_id (default JNull (zone !! "zoneId")) = false.
Proof.
  intros Hother. destruct (zone !! "zoneId") as [[| | | |s| |]|]; simpl; try done.
  destruct (String.eqb_spec s zone_id) as [->|]; [by destruct Hother|done].
Qed.

Lemma status_with_zones_truthy (status : gmap string json) zones :
  status !! "zones" = Some zones → truthy (JObj status) = true.
Proof.
  intros Hzones. simpl. rewrite bool_decide_eq_false_2; [done|].
  intros ->. by rewrite lookup_empty in Hzones.
Qed.

(** The scan neither logs nor calls out. *)
Lemma scan_trace (k : kind) (zones : list json) (self : sensor)
    (tr : list (event call)) :
  (scan k zones self tr).2 = tr.
Proof.
  induction zones as [|zone zones IH]; simpl; run; [done|].
  destruct (py_get zone "zoneId" JNull) as [zone_id|e]; simpl; [|done].
  destruct (is_JStr (_zone_id self) zone_id); [|apply IH].
  by destruct (py_get zone (field k) JNull).
Qed.

Lemma scan_first_match (k : kind) (before after : list json)
    (zone : gmap string json) (self : sensor) (tr : list (event call)) :
  Forall (λ x, ∃ z : gmap string json,
            x = JObj z ∧ z !! "zoneId" ≠ Some (JStr (_zone_id self))) before →
  zone !! "zoneId" = Some (JStr (_zone_id self)) →
  scan k (before ++ JObj zone :: after) self tr
  = (Ok (), set_state self (default JNull (zone !! field k)), tr).
Proof.
  intros Hbefore Hzone. induction Hbefore as [|x before (z & -> & Hother) _ IH].
  - simpl. run. rewrite Hzone. simpl. by rewrite String.eqb_refl.
  - simpl. run. by rewrite other_zone_skipped.
Qed.

Lemma scan_no_match (k : kind) (zones : list json) (self : sensor)
    (tr : list (event call)) :
  Forall (λ x, ∃ z : gmap string json,
            x = JObj z ∧ z !! "zoneId" ≠ Some (JStr (_zone_id self))) zones →
  scan k zones self tr = (Ok (), self, tr).
Proof.
  intros Hzones. induction Hzones as [|x zones (z & -> & Hother) _ IH].
  - done.
  - simpl. run. by rewrite other_zone_skipped.
Qed.

Section Facts.

Context (env : environment) (k : kind).

(** X19: An update stores the field of the first zone record carrying the
    sensor's zone id, [None] if that record lacks the field; the records
    after it are not looked at, so nothing about them can make the update
    fail, and nothing is logged. *)
Theorem first_matching_zone_wins (self : sensor) (tr : list (event call))
    (status zone : gmap string json) (before after : list json) :
  get_status env tr = Ok (JObj status) →
  status !! "zones" = Some (JArr (before ++ JObj zone :: after)) →
  Forall (λ x, ∃ z : gmap string json,
            x = JObj z ∧ z !! "zoneId" ≠ Some (JStr (_zone_id self))) before →
  zone !! "zoneId" = Some (JStr (_zone_id self)) →
  async_update env k self tr
  = (Ok (), set_state self (default JNull (zone !! field k)),
     tr ++ [EvCall GetStatus]).
Proof.
  intros Hstatus Hzones Hbefore Hzone.
  unfold async_update, update_body. run. rewrite Hstatus.
  rewrite (status_with_zones_truthy _ _ Hzones). cbn [py_get]. rewrite Hzones.
  simpl. by rewrite scan_first_match.
Qed.

(** X20: An update leaves the sensor as it was, silently, when the status is
    falsy ([None], an empty document), has no [zones], or lists only
    records of other zones. *)
Theorem no_matching_zone_keeps_state (self : sensor) (tr : list (event call))
    (status : json) :
  get_status env tr = Ok status →
  truthy status = false
  ∨ (∃ m : gmap string json, status = JObj m ∧ m !! "zones" = None)
  ∨ (∃ (m : gmap string json) zones,
       status = JObj m ∧ m !! "zones" = Some (JArr zones)
       ∧ Forall (λ x, ∃ z : gmap string json,
                   x = JObj z ∧ z !! "zoneId" ≠ Some (JStr (_zone_id self))) zones) →
  async_update env k self tr = (Ok (), self, tr ++ [EvCall GetStatus]).
Proof.
  intros Hstatus Hcases.
  unfold async_update, update_body. run. rewrite Hstatus.
  destruct Hcases as [Hfalsy|[(m & -> & Hnone)|(m & zones & -> & Hzones & Hothers)]].
  - by rewrite Hfalsy.
  - destruct (truthy (JObj m)); [|done]. cbn [py_get]. by rewrite Hnone.
  - rewrite (status_with_zones_truthy _ _ Hzones). cbn [py_get]. rewrite Hzones.
    simpl. by rewrite scan_no_match.
Qed.

(** X21: Every update asks for the status exactly once, and what it raises, if
    anything, is no [Exception]: failures of the status call or of reading
    the document never reach the caller. *)
Theorem update_asks_once_and_contains_failures (self : sensor)
    (tr : list (event call)) :
  calls (async_update env k self tr).2 = calls tr ++ [GetStatus]
  ∧ ∀ e, (async_update env k self tr).1.1 = Raise e → is_Exception e = false.
Proof.
  assert (Hbody : (update_body env k self tr).2 = tr ++ [EvCall GetStatus]).
  { unfold update_body. run.
    destruct (get_status env tr) as [status|e0]; simpl; [|done].
    destruct (truthy status); [|done].
    destruct (py_get status "zones" (JArr [])) as [zones|e1]; simpl; [|done].
    destruct (py_iter zones) as [zs|e2]; simpl; [|done].
    apply scan_trace. }
  unfold async_update. run.
  destruct (update_body env k self tr) as [[[u|e0] s1] t1]; simpl in *; subst t1.
  - split; [by autorewrite with trace|done].
  - destruct (is_Exception e0) eqn:Hcaught; simpl.
    + split; [by autorewrite with trace|done].
    + split; [by autorewrite with trace|].
      intros e [= <-]. by destruct e0.
Qed.

End Facts.

Lemma first_matching_zone_wins_witness :
  async_update Scenario.status_two_zones Temperature Scenario.warm_sensor []
  = (Ok (), set_state Scenario.warm_sensor
              (default JNull (({[ "zoneId" := JStr "0";
                                  "current_temperature" := JInt 21 ]}
                               : gmap string json) !! field Temperature)),
     [] ++ [EvCall GetStatus]).
Proof.
  apply (first_matching_zone_wins Scenario.status_two_zones Temperature
           Scenario.warm_sensor []
           {[ "zones" := JArr
                [JObj {[ "zoneId" := JStr "1"; "current_temperature" := JInt 19 ]};
                 JObj {[ "zoneId" := JStr "0"; "current_temperature" := JInt 21 ]}] ]}
           {[ "zoneId" := JStr "0"; "current_temperature" := JInt 21 ]}
           [JObj {[ "zoneId" := JStr "1"; "current_temperature" := JInt 19 ]}] []
           eq_refl eq_refl).
  - constructor; [|constructor]. eexists. split; [reflexivity|]. discriminate.
  - reflexivity.
Defined.

Lemma no_matching_zone_keeps_state_witness :
  async_update
    {| get_status := λ _, Ok (JObj ∅) |} Battery Scenario.warm_sensor []
  = (Ok (), Scenario.warm_sensor, [] ++ [EvCall GetStatus]).
Proof.
  apply (no_matching_zone_keeps_state {| get_status := λ _, Ok (JObj ∅) |} Battery
           Scenario.warm_sensor [] (JObj ∅) eq_refl).
  left. reflexivity.
Defined.

End SensorMore.

(** ** More on the diagnostic helpers *)

Module DiagnosticsFacts.

Import Uptime Diagnostics.

(** X22: [_format_uptime] raises for two inputs only, NaN and positive infinity;
    on everything else it returns a string. *)
Theorem format_uptime_raises_only_non_finite (seconds : json) (e : exn) :
  _format_uptime seconds = Raise e
  ↔ (seconds = JFloat FNaN ∧ e = ValueError)
    ∨ (seconds = JFloat (FInf false) ∧ e = OverflowError).
Proof.
  split.
  - unfold _format_uptime.
    destruct seconds as [|b|z|[n d|[]|]|s|l|m]; cbn [is_int_or_float negb orb lt_zero];
      try discriminate.
    + destruct (z <? 0)%Z; discriminate.
    + destruct (n <? 0)%Z; discriminate.
    + intros [= <-]. by right.
    + intros [= <-]. by left.
  - by intros [[-> ->]|[-> ->]].
Qed.

(** X23: A finite non-negative [float] is formatted as its integer part; a
    negative one gives ["Unknown"], also above -1, where the integer part
    would be 0. *)
Theorem format_uptime_truncates_floats (n : Z) (d : positive) :
  ((0 ≤ n)%Z →
   _format_uptime (JFloat (FFinite n d)) = _format_uptime (JInt (n `div` Z.pos d)))
  ∧ ((n < 0)%Z → _format_uptime (JFloat (FFinite n d)) = Ok "Unknown").
Proof.
  split; intros Hn; unfold _format_uptime; cbn [is_int_or_float negb orb lt_zero].
  - assert ((n <? 0)%Z = false) as -> by lia.
    assert ((n `div` Z.pos d <? 0)%Z = false) as ->.
    { apply Z.ltb_ge. apply Z.div_pos; lia. }
    cbn [py_int mbind result_bind]. by rewrite Z.quot_div_nonneg by lia.
  - by assert ((n <? 0)%Z = true) as -> by lia.
Qed.

(** X24: A whole number of days, hours or minutes is printed as that one
    component, and fewer than sixty seconds as seconds alone. *)
Theorem format_uptime_whole_units (n : Z) :
  (0 < n)%Z →
  _format_uptime (JInt (n * 86400)) = Ok (pretty n +:+ "d")
  ∧ ((n < 24)%Z → _format_uptime (JInt (n * 3600)) = Ok (pretty n +:+ "h"))
  ∧ ((n < 60)%Z → _format_uptime (JInt (n * 60)) = Ok (pretty n +:+ "m"))
  ∧ ((n < 60)%Z → _format_uptime (JInt n) = Ok (pretty n +:+ "s")).
Proof.
  intros Hn.
  assert (Hshape : ∀ total days hours minutes seconds,
            (0 ≤ total)%Z →
            (total `div` 86400 = days)%Z →
            ((total `mod` 86400) `div` 3600 = hours)%Z →
            (((total `mod` 86400) `mod` 3600) `div` 60 = minutes)%Z →
            (((total `mod` 86400) `mod` 3600) `mod` 60 = seconds)%Z →
            _format_uptime (JInt total)
            = Ok (String.concat " "
                    ((part (0 <? days)%Z days "d" ++ part (0 <? hours)%Z hours "h"
                      ++ part (0 <? minutes)%Z minutes "m")
                     ++ part ((0 <? seconds)%Z
                              || bool_decide (part (0 <? days)%Z days "d"
                                              ++ part (0 <? hours)%Z hours "h"
                                              ++ part (0 <? minutes)%Z minutes "m" = []))
                          seconds "s"))).
  { intros total days hours minutes seconds Htotal <- <- <- <-.
    unfold _format_uptime, format_parts. cbn [is_int_or_float negb orb lt_zero].
    assert ((total <? 0)%Z = false) as -> by lia.
    cbn [py_int mbind result_bind]. by rewrite <- !app_assoc. }
  assert (Hyes : (0 <? n)%Z = true) by lia.
  split; [|split; [|split]].
  - rewrite (Hshape (n * 86400)%Z n 0%Z 0%Z 0%Z); try lia.
    + by rewrite Hyes.
    + by rewrite Z.div_mul.
    + by rewrite Z.mod_mul.
    + by rewrite Z.mod_mul.
    + by rewrite Z.mod_mul.
  - intros Hlt.
    assert (Hsmall : ((n * 3600) `mod` 86400 = n * 3600)%Z)
      by (apply Z.mod_small; lia).
    rewrite (Hshape (n * 3600)%Z 0%Z n 0%Z 0%Z); try lia.
    + by rewrite Hyes.
    + apply Z.div_small; lia.
    + rewrite Hsmall. by rewrite Z.div_mul.
    + rewrite Hsmall. by rewrite Z.mod_mul.
    + rewrite Hsmall. by rewrite Z.mod_mul.
  - intros Hlt.
    assert (Hsmall : ((n * 60) `mod` 86400 = n * 60)%Z)
      by (apply Z.mod_small; lia).
    assert (Hsmall' : ((n * 60) `mod` 3600 = n * 60)%Z)
      by (apply Z.mod_small; lia).
    rewrite (Hshape (n * 60)%Z 0%Z 0%Z n 0%Z); try lia.
    + by rewrite Hyes.
    + apply Z.div_small; lia.
    + rewrite Hsmall. apply Z.div_small; lia.
    + rewrite Hsmall, Hsmall'. by rewrite Z.div_mul.
    + rewrite Hsmall, Hsmall'. by rewrite Z.mod_mul.
  - intros Hlt.
    assert (Hsmall : (n `mod` 86400 = n)%Z) by (apply Z.mod_small; lia).
    assert (Hsmall' : (n `mod` 3600 = n)%Z) by (apply Z.mod_small; lia).
    rewrite (Hshape n 0%Z 0%Z 0%Z n); try lia.
    + by rewrite Hyes.
    + apply Z.div_small; lia.
    + rewrite Hsmall. apply Z.div_small; lia.
    + rewrite Hsmall, Hsmall'. apply Z.div_small; lia.
    + rewrite Hsmall, Hsmall'. apply Z.mod_small; lia.
Qed.

Lemma format_uptime_truncates_floats_witness :
  _format_uptime (JFloat (FFinite 181 2)) = _format_uptime (JInt (181 `div` 2))
  ∧ _format_uptime (JFloat (FFinite (-1) 2)) = Ok "Unknown".
Proof.
  split.
  - destruct (format_uptime_truncates_floats 181 2) as (Hpos & _).
    apply Hpos. lia.
  - destruct (format_uptime_truncates_floats (-1) 2) as (_ & Hneg).
    apply Hneg. lia.
Defined.

Lemma format_uptime_whole_units_witness :
  _format_uptime (JInt (2 * 86400)) = Ok (pretty 2%Z +:+ "d")
  ∧ _format_uptime (JInt 2) = Ok (pretty 2%Z +:+ "s").
Proof.
  destruct (format_uptime_whole_units 2 ltac:(lia)) as (Hdays & _ & _ & Hseconds).
  split; [exact Hdays|]. apply Hseconds. lia.
Defined.

Lemma format_uptime_int_witness :
  ∃ days hours minutes seconds : Z,
    (93784 = days * 86400 + hours * 3600 + minutes * 60 + seconds)%Z
    ∧ (0 ≤ days ∧ 0 ≤ hours < 24 ∧ 0 ≤ minutes < 60 ∧ 0 ≤ seconds < 60)%Z
    ∧ _format_uptime (JInt 93784)
      = Ok (String.concat " "
              (let parts := part (0 <? days)%Z days "d"
                            ++ part (0 <? hours)%Z hours "h"
                            ++ part (0 <? minutes)%Z minutes "m" in
               parts ++ part ((0 <? seconds)%Z || bool_decide (parts = []))
                          seconds "s")).
Proof. apply (UptimeFacts.format_uptime_int 93784). lia. Defined.

(** X26: [_validate_status] never raises; it answers [True] exactly for a
    [dict] that has the three keys [SystemStatus_Local], [LiveAircon] and
    [AirconSystem], and then logs nothing. *)
Theorem validate_status_iff_three_keys (status : json)
    (tr : list (event Empty_set)) :
  ∃ valid tr',
    _validate_status status () tr = (Ok valid, (), tr')
    ∧ (valid = true
       ↔ ∃ m : gmap string json,
           status = JObj m
           ∧ is_Some (m !! "SystemStatus_Local")
           ∧ is_Some (m !! "LiveAircon")
           ∧ is_Some (m !! "AirconSystem"))
    ∧ (valid = true → tr' = tr).
Proof.
  unfold _validate_status.
  destruct status as [| | | | | |m];
    try (exists false, tr; split; [reflexivity|];
         split; [|done]; split; [done|]; by intros (m & ? & _)).
  unfold required_paths. run.
  destruct (bool_decide (is_Some (m !! "SystemStatus_Local"))) eqn:H1; simpl.
  - destruct (bool_decide (is_Some (m !! "LiveAircon"))) eqn:H2; simpl.
    + destruct (bool_decide (is_Some (m !! "AirconSystem"))) eqn:H3; simpl.
      * eexists _, _. split; [reflexivity|]. split; [|done].
        split; [|done]. intros _. exists m.
        apply bool_decide_eq_true in H1, H2, H3. done.
      * eexists _, _. split; [reflexivity|]. split; [|done].
        split; [done|]. intros (m' & [= <-] & _ & _ & Hkey).
        apply bool_decide_eq_false in H3. done.
    + eexists _, _. split; [reflexivity|]. split; [|done].
      split; [done|]. intros (m' & [= <-] & _ & Hkey & _).
      apply bool_decide_eq_false in H2. done.
  - eexists _, _. split; [reflexivity|]. split; [|done].
    split; [done|]. intros (m' & [= <-] & Hkey & _).
    apply bool_decide_eq_false in H1. done.
Qed.

(** X27: [_format_wifi_signal] answers ["Unknown"] for anything that is not a
    number.  For an integer signal it prints the number, [dBm] and a band
    whose bounds are exclusive above: more than -50 is excellent, -50 down
    to more than -60 good, -60 down to more than -70 fair, -70 and below
    poor.  NaN, which compares false with every bound, is rated poor. *)
Theorem wifi_signal_bands (float_str : pyfloat → string) :
  (∀ signal, is_int_or_float signal = false →
     _format_wifi_signal float_str signal = "Unknown")
  ∧ (∀ z : Z,
       _format_wifi_signal float_str (JInt z)
       = pretty z +:+ " dBm (" +:+ strength (JInt z) +:+ ")"
       ∧ (strength (JInt z) = "Excellent" ↔ (-50 < z)%Z)
       ∧ (strength (JInt z) = "Good" ↔ (-60 < z ≤ -50)%Z)
       ∧ (strength (JInt z) = "Fair" ↔ (-70 < z ≤ -60)%Z)
       ∧ (strength (JInt z) = "Poor" ↔ (z ≤ -70)%Z))
  ∧ _format_wifi_signal float_str (JFloat FNaN) = float_str FNaN +:+ " dBm (Poor)".
Proof.
  split; [|split].
  - intros signal Hkind. unfold _format_wifi_signal. by rewrite Hkind.
  - intros z. split; [reflexivity|].
    unfold strength, gt_int.
    destruct (Z.ltb_spec (-50) z); [|destruct (Z.ltb_spec (-60) z);
      [|destruct (Z.ltb_spec (-70) z)]];
      repeat split; intros; try discriminate; try lia; done.
  - reflexivity.
Qed.

End DiagnosticsFacts.
